(** * ivy.functional.ivy.data_type: default-dtype resolution and validity

    A shallow embedding of [ivy/functional/ivy/data_type.py]: the three
    default-dtype stacks, the explicit-dtype short circuit, the
    value-driven widening of [default_int_dtype] and [default_float_dtype]
    (with [_check_float64]), the category tests [is_int_dtype] and
    [is_float_dtype], [valid_dtype], [invalid_dtype] and [convert_dtype].

    Python integers are [Z]; Python floats are IEEE-754 binary64 values,
    represented with the Standard Library's [spec_float]; strings are
    [string]; exceptions are values of [PyExc] carried by a result type, and
    functions that read or write module globals run in a state-and-error
    monad over [Globals]. *)

From Stdlib Require Import ZArith QArith Qabs Qround List String Ascii Bool Lia.
From Stdlib Require Import Floats.SpecFloat.
From Stdlib Require Import DecimalString.
From Stdlib Require Import DecimalPos DecimalZ.
Import ListNotations.
Open Scope Z_scope.

(** ** Exceptions and results *)

Inductive PyExc : Type :=
| ValueError
| OverflowError
| TypeError
| KeyError
| UnboundLocalError
| ModuleNotFoundError
| Exception (msg : string).

Inductive Result (A : Type) : Type :=
| Ok (a : A)
| Raise (e : PyExc).
Arguments Ok {A} a.
Arguments Raise {A} e.

Definition rbind {A B : Type} (r : Result A) (k : A -> Result B) : Result B :=
  match r with
  | Ok a => k a
  | Raise e => Raise e
  end.

Declare Scope result_scope.
Delimit Scope result_scope with result.
Notation "'let?' x ':=' c 'in' k" := (rbind c (fun x => k))
  (at level 10, x name, c at level 100, k at level 200) : result_scope.
Open Scope result_scope.

(** ** Python strings *)

Module PyStr.

(** [sub in s] *)
Fixpoint contains (sub s : string) : bool :=
  match s with
  | EmptyString => String.eqb sub EmptyString
  | String _ rest => String.prefix sub s || contains sub rest
  end.

(** [s.replace(old, new)] for a non-empty [old]; [skip] counts the
    characters of a match still to be dropped. *)
Fixpoint replace_from (skip : nat) (old new s : string) : string :=
  match s with
  | EmptyString => EmptyString
  | String c rest =>
      match skip with
      | S k => replace_from k old new rest
      | O =>
          if String.prefix old s
          then new ++ replace_from (String.length old - 1) old new rest
          else String c (replace_from O old new rest)
      end
  end%string.

Definition replace (old new s : string) : string := replace_from O old new s.

(** [s.split(sep)] for a non-empty [sep]; [cur] is the piece being read. *)
Fixpoint split_from (skip : nat) (sep cur s : string) : list string :=
  match s with
  | EmptyString => [cur]
  | String c rest =>
      match skip with
      | S k => split_from k sep cur rest
      | O =>
          if String.prefix sep s
          then cur :: split_from (String.length sep - 1) sep EmptyString rest
          else split_from O sep (cur ++ String c EmptyString) rest
      end
  end%string.

Definition split (sep s : string) : list string :=
  split_from O sep EmptyString s.

(** [s[n:]] *)
Fixpoint drop (n : nat) (s : string) : string :=
  match n, s with
  | O, _ => s
  | S _, EmptyString => EmptyString
  | S k, String _ rest => drop k rest
  end.

(** [str(z)] for an int *)
Definition of_int (z : Z) : string := NilZero.string_of_int (Z.to_int z).

(** [int(s)]: a decimal literal, [ValueError] otherwise.  (Python also
    accepts surrounding blanks, a leading plus sign and underscores; no
    string built in this file has them.) *)
Definition to_int (s : string) : Result Z :=
  match NilZero.int_of_string s with
  | Some d => Ok (Z.of_int d)
  | None => Raise ValueError
  end.

Fixpoint bits (p : positive) : string :=
  match p with
  | xH => "1"
  | xO q => bits q ++ "0"
  | xI q => bits q ++ "1"
  end%string.

(** [bin(z)] *)
Definition bin (z : Z) : string :=
  match z with
  | Z0 => "0b0"
  | Zpos p => "0b" ++ bits p
  | Zneg p => "-0b" ++ bits p
  end%string.

(** [repr] of a list of strings, as ["{}".format(l)] prints it *)
Fixpoint join (sep : string) (l : list string) : string :=
  match l with
  | [] => EmptyString
  | [x] => x
  | x :: rest => x ++ sep ++ join sep rest
  end%string.

Definition repr_str (s : string) : string := ("'" ++ s ++ "'")%string.

Definition repr_list (l : list string) : string :=
  ("[" ++ join ", " (map repr_str l) ++ "]")%string.

(** [x in l] for a list or tuple of strings *)
Definition mem (x : string) (l : list string) : bool :=
  existsb (String.eqb x) l.

End PyStr.

(** ** Python floats: IEEE-754 binary64 *)

Module PyFloat.

Definition prec : Z := 53.
Definition emax : Z := 1024.

Definition float : Type := spec_float.

Definition inf : float := S754_infinity false.
Definition neg_inf : float := S754_infinity true.
Definition nan : float := S754_nan.

(** [float(z)] for an int [z]: the nearest binary64 value, ties to even.
    An infinite result stands for the [OverflowError] of the conversion. *)
Definition of_Z (z : Z) : float := binary_normalize prec emax z 0 false.

Definition mul : float -> float -> float := SFmul prec emax.
Definition div : float -> float -> float := SFdiv prec emax.

(** [math.isfinite] on a float *)
Definition isfinite (f : float) : bool :=
  match f with
  | S754_zero _ | S754_finite _ _ _ => true
  | S754_infinity _ | S754_nan => false
  end.

(** The exact value of a finite float. *)
Definition to_Q (f : float) : Q :=
  match f with
  | S754_finite s m e =>
      (inject_Z (if s then Zneg m else Zpos m) * Qpower 2 e)%Q
  | _ => 0%Q
  end.

Definition Qlt_bool (a b : Q) : bool := negb (Qle_bool b a).

(** [floor(log10 x)] for a positive rational [x]: the search runs down
    from an upper estimate taken from the bit lengths. *)
Fixpoint floor_log10_from (fuel : nat) (k : Z) (x : Q) : Z :=
  match fuel with
  | O => k
  | S fuel' =>
      if Qle_bool (Qpower 10 k) x then k
      else floor_log10_from fuel' (k - 1) x
  end.

Definition floor_log10 (x : Q) : Z :=
  let top := (Z.log2 (Qnum x) - Z.log2 (Zpos (Qden x)) + 1) * 30103 / 100000 + 1 in
  floor_log10_from 8 top x.

(** *** [repr] of a float

    CPython prints the shortest decimal string that reads back as the
    same float, and among the shortest ones the closest to it
    ([_Py_dg_dtoa], mode 0), in scientific notation when the decimal
    point position is below -3 or above 16. *)

(** The decimals that read back as [m * 2^e] lie between the midpoints
    to the neighbouring floats, the ends included when [m] is even. *)
Definition round_interval (m : positive) (e : Z) : Q * Q :=
  let lo := if Pos.eqb m (2 ^ 52) && (-1074 <? e)
            then (inject_Z (4 * Zpos m - 1) * Qpower 2 (e - 2))%Q
            else (inject_Z (2 * Zpos m - 1) * Qpower 2 (e - 1))%Q in
  let hi := (inject_Z (2 * Zpos m + 1) * Qpower 2 (e - 1))%Q in
  (lo, hi).

Definition rounds_to (m : positive) (e : Z) (d : Q) : bool :=
  let '(lo, hi) := round_interval m e in
  if Z.even (Zpos m) then Qle_bool lo d && Qle_bool d hi
  else Qlt_bool lo d && Qlt_bool d hi.

(** The coarsest power of ten [10^q] a multiple [d * 10^q] of which reads
    back as the float, tried from [q] downwards; of the two multiples
    around the float the closer one is taken. *)
Fixpoint shortest_from (fuel : nat) (m : positive) (e : Z) (q : Z) : Z * Z :=
  let x := (inject_Z (Zpos m) * Qpower 2 e)%Q in
  let p := Qpower 10 q in
  let dlo := Qfloor (x / p) in
  let dhi := dlo + 1 in
  let oklo := (0 <? dlo) && rounds_to m e (inject_Z dlo * p) in
  let okhi := rounds_to m e (inject_Z dhi * p) in
  let closer_lo := Qle_bool (x - inject_Z dlo * p) (inject_Z dhi * p - x) in
  match oklo, okhi with
  | true, true => if closer_lo then (dlo, q) else (dhi, q)
  | true, false => (dlo, q)
  | false, true => (dhi, q)
  | false, false =>
      match fuel with
      | O => (dlo, q)
      | S fuel' => shortest_from fuel' m e (q - 1)
      end
  end.

(** The digits and the position of the decimal point. *)
Definition dtoa (m : positive) (e : Z) : string * Z :=
  let k := floor_log10 (inject_Z (Zpos m) * Qpower 2 e)%Q in
  let '(d, q) := shortest_from 20 m e (k + 1) in
  let ds := PyStr.of_int d in
  (ds, Z.of_nat (String.length ds) + q).

Fixpoint zeros (n : nat) : string :=
  match n with
  | O => EmptyString
  | S n' => String "0" (zeros n')
  end.

Definition two_digits (z : Z) : string :=
  if z <? 10 then String "0" (PyStr.of_int z) else PyStr.of_int z.

Definition format_repr (ds : string) (decpt : Z) : string :=
  let n := Z.of_nat (String.length ds) in
  if (decpt <=? -4) || (16 <? decpt) then
    let ex := decpt - 1 in
    let sgn := if ex <? 0 then "-"%string else "+"%string in
    let mant := match ds with
                | String c (String _ _ as rest) => String c (String "." rest)
                | _ => ds
                end in
    (mant ++ "e" ++ sgn ++ two_digits (Z.abs ex))%string
  else if decpt <=? 0 then
    ("0." ++ zeros (Z.to_nat (- decpt)) ++ ds)%string
  else if decpt <? n then
    (substring 0 (Z.to_nat decpt) ds ++ "." ++
     substring (Z.to_nat decpt) (Z.to_nat (n - decpt)) ds)%string
  else
    (ds ++ zeros (Z.to_nat (decpt - n)) ++ ".0")%string.

(** [str(f)], which is [repr(f)] *)
Definition repr (f : float) : string :=
  match f with
  | S754_zero s => if s then "-0.0" else "0.0"
  | S754_infinity s => if s then "-inf" else "inf"
  | S754_nan => "nan"
  | S754_finite s m e =>
      let '(ds, decpt) := dtoa m e in
      let sgn := if s then "-"%string else ""%string in
      (sgn ++ format_repr ds decpt)%string
  end%string.

End PyFloat.

(** ** Python values *)

(** The scalars of [numbers.Number] that the module compares and prints:
    [int], [float] and [bool].  (Complex numbers, fractions and numpy
    scalars are not modelled.) *)
Inductive PyNum : Type :=
| PyInt (z : Z)
| PyFloat (f : PyFloat.float)
| PyBool (b : bool).

(** A dtype is a string ([ivy.Dtype] and its subclasses [ivy.IntDtype] and
    [ivy.FloatDtype] are [str] subclasses, equal to the string they wrap)
    or a handle owned by a backend, told apart by its name. *)
Inductive PyDtype : Type :=
| DStr (s : string)
| DNative (h : string).

(** What [input], [item] and [dtype_in] range over.  [VNativeArray dt] is
    an array of the active backend (an [ivy.Array] is unwrapped to one by
    [inputs_to_native_arrays]) for which [ivy.dtype] answers [dt];
    [VNdarray name] is a [numpy.ndarray] whose [dtype.name] is [name] and
    that is not an array of the active backend. *)
#[warnings="-register-all"]
Inductive PyVal : Type :=
| VNum (n : PyNum)
| VList (l : list PyVal)
| VTuple (l : list PyVal)
| VDict (d : list (string * PyVal))
| VNativeArray (dt : string)
| VNdarray (name : string)
| VDtype (d : PyDtype).

(** *** Comparison of numbers

    Python compares [int], [bool] and [float] by their exact values; NaN
    is unordered and unequal to everything. *)
Inductive ExtQ : Type :=
| NaN
| NegInf
| PosInf
| Fin (q : Q).

Definition num_value (v : PyNum) : ExtQ :=
  match v with
  | PyInt z => Fin (inject_Z z)
  | PyBool b => Fin (inject_Z (if b then 1 else 0))
  | PyFloat f =>
      match f with
      | S754_nan => NaN
      | S754_infinity s => if s then NegInf else PosInf
      | S754_zero _ => Fin 0
      | S754_finite _ _ _ => Fin (PyFloat.to_Q f)
      end
  end.

(** [a > b] *)
Definition num_gt (a b : PyNum) : bool :=
  match num_value a, num_value b with
  | Fin x, Fin y => PyFloat.Qlt_bool y x
  | PosInf, (Fin _ | NegInf) => true
  | Fin _, NegInf => true
  | _, _ => false
  end.

(** [a != b] *)
Definition num_ne (a b : PyNum) : bool :=
  match num_value a, num_value b with
  | Fin x, Fin y => negb (Qeq_bool x y)
  | PosInf, PosInf => false
  | NegInf, NegInf => false
  | _, _ => true
  end.

(** [ivy.inf], which is [float("inf")] *)
Definition ivy_inf : PyNum := PyFloat PyFloat.inf.

(** [math.isfinite(v)]; an int is converted to a float first. *)
Definition math_isfinite (v : PyNum) : Result bool :=
  match v with
  | PyFloat f => Ok (PyFloat.isfinite f)
  | PyInt z => if PyFloat.isfinite (PyFloat.of_Z z) then Ok true
               else Raise OverflowError
  | PyBool _ => Ok true
  end.

(** [str(v)] *)
Definition py_str (v : PyNum) : string :=
  match v with
  | PyInt z => PyStr.of_int z
  | PyFloat f => PyFloat.repr f
  | PyBool b => if b then "True" else "False"
  end%string.

(** [int(math.floor(math.log10(abs(v))))] for a finite non-zero [v], with
    the logarithm taken exactly.  (A libm logarithm can round up to the
    next integer for a float within a few units in the last place below a
    power of ten.) *)
Definition floor_log10_abs (v : PyNum) : Z :=
  match num_value v with
  | Fin q => PyFloat.floor_log10 (Qabs q)
  | _ => 0
  end.

(** ** [_check_float64] *)

(** The float [3.4028235]: both operands of the division are exact, so the
    quotient is the float nearest to the decimal literal. *)
Definition literal_3_4028235 : PyFloat.float :=
  PyFloat.div (PyFloat.of_Z 34028235) (PyFloat.of_Z 10000000).

(** [3.4028235 * 10**38]: the int is converted to a float, then a float
    product. *)
Definition float32_max_check : PyNum :=
  PyFloat (PyFloat.mul literal_3_4028235 (PyFloat.of_Z (10 ^ 38))).

(** [tmp[0]] of [tmp = str(input).replace("-", "").split(".")] *)
Definition integer_part_str (input : PyNum) : string :=
  hd EmptyString (PyStr.split "." (PyStr.replace "-" "" (py_str input))).

Definition _check_float64 (input : PyNum) : Result bool :=
  let? finite := math_isfinite input in
  if finite then
    let exponent :=
      if num_ne input (PyInt 0) then floor_log10_abs input else 0 in
    let? n := PyStr.to_int (integer_part_str input) in
    let mant := PyStr.replace "0b" "" (PyStr.bin n) in
    if num_gt input float32_max_check then Ok true
    else
      let? beyond :=
        if (24 <? Z.of_nat (String.length mant))
        then (let? tail := PyStr.to_int (PyStr.drop 24 mant) in Ok (0 <? tail))
        else Ok false in
      Ok (beyond || (exponent <? -126) || (127 <? exponent))
  else Ok false.

(** ** The backend capability interface *)

(** The dtype names ivy itself defines ([ivy.int8] ... [ivy.bool]). *)
Definition ivy_dtypes : list string :=
  ["int8"; "int16"; "int32"; "int64"; "uint8"; "uint16"; "uint32"; "uint64";
   "bfloat16"; "float16"; "float32"; "float64"; "bool"]%string.

(** Modelled from the spec: the active backend and the backend modules are
    not in this file of the repository.  The interface is the one of the
    spec's Backend Capability Provider: [backend] is the name [ivy.backend]
    of the active backend, [as_ivy_dtype] and [as_native_dtype] its
    conversions (which may raise), [valid_dtypes] and [invalid_dtypes] its
    static dtype sets, and [backend_module] what [importlib.import_module]
    finds under a module path, namely that module's own [as_ivy_dtype].
    Canonicalizing a canonical dtype returns it unchanged, and ivy's own
    dtype names are canonical. *)
Class Backend : Type := {
  backend : string;
  as_ivy_dtype : PyDtype -> Result string;
  as_native_dtype : PyDtype -> Result PyDtype;
  valid_dtypes : list string;
  invalid_dtypes : list string;
  backend_module : string -> option (PyDtype -> Result string);
  as_ivy_dtype_idem :
    forall d s, as_ivy_dtype d = Ok s -> as_ivy_dtype (DStr s) = Ok s;
  as_ivy_dtype_const :
    forall s, In s ivy_dtypes -> as_ivy_dtype (DStr s) = Ok s
}.

(** ** Module globals and the monad of the module's functions *)

(** The three stacks are Python lists used as stacks: [append] adds at the
    end and the top is the last element.  [imported] logs the module paths
    handed to [importlib.import_module]. *)
Record Globals : Type := mkGlobals {
  default_dtype_stack : list string;
  default_float_dtype_stack : list string;
  default_int_dtype_stack : list string;
  imported : list string
}.

Definition M (A : Type) : Type := Globals -> Result A * Globals.

Definition ret {A : Type} (a : A) : M A := fun g => (Ok a, g).

Definition raise {A : Type} (e : PyExc) : M A := fun g => (Raise e, g).

Definition bind {A B : Type} (c : M A) (k : A -> M B) : M B :=
  fun g =>
    match c g with
    | (Ok a, g') => k a g'
    | (Raise e, g') => (Raise e, g')
    end.

Definition lift {A : Type} (r : Result A) : M A := fun g => (r, g).

Definition get : M Globals := fun g => (Ok g, g).

Definition put (g : Globals) : M unit := fun _ => (Ok tt, g).

Declare Scope monad_scope.
Delimit Scope monad_scope with monad.
Notation "x <- c ;; k" := (bind c (fun x => k))
  (at level 61, c at next level, right associativity) : monad_scope.
Notation "c ;;; k" := (bind c (fun _ => k))
  (at level 61, right associativity) : monad_scope.
Open Scope monad_scope.

(** [l[-1]] of a non-empty list of strings *)
Definition top (l : list string) : string := last l EmptyString.

(** [ivy.default(x, default_val)] *)
Definition ivy_default {A : Type} (x : option A) (default_val : A) : A :=
  match x with
  | Some a => a
  | None => default_val
  end.

(** ** Nested scan *)

Inductive Key : Type :=
| KIdx (i : nat)
| KName (k : string).

(** Modelled from the spec: [ivy.nested_indices_where] lives in another
    file of the repository.  The spec describes a depth-first scan of the
    nested lists, tuples and dicts that stops at the first leaf satisfying
    the predicate; the result is the list of index paths found, empty
    (false in a condition) when no leaf matches.  An exception raised by
    the predicate on a leaf visited before a match propagates. *)
Fixpoint nested_indices_where (nest : PyVal) (fn : PyVal -> Result bool)
    (index : list Key) {struct nest} : Result (list (list Key)) :=
  match nest with
  | VList l | VTuple l =>
      (fix scan (items : list PyVal) (i : nat) {struct items} :=
         match items with
         | [] => Ok []
         | x :: rest =>
             match nested_indices_where x fn (index ++ [KIdx i]) with
             | Raise e => Raise e
             | Ok [] => scan rest (S i)
             | Ok found => Ok found
             end
         end) l O
  | VDict d =>
      (fix scan (items : list (string * PyVal)) {struct items} :=
         match items with
         | [] => Ok []
         | (k, x) :: rest =>
             match nested_indices_where x fn (index ++ [KName k]) with
             | Raise e => Raise e
             | Ok [] => scan rest
             | Ok found => Ok found
             end
         end) d
  | leaf =>
      let? hit := fn leaf in Ok (if hit then [index] else [])
  end.

(** Truth value of a list in a condition. *)
Definition truthy {A : Type} (l : list A) : bool :=
  match l with
  | [] => false
  | _ :: _ => true
  end.

(** [lambda x: x > bound and x != ivy.inf] on a leaf; a leaf that is not a
    number cannot be compared with an int. *)
Definition exceeds (bound : Z) (x : PyVal) : Result bool :=
  match x with
  | VNum v => Ok (num_gt v (PyInt bound) && num_ne v ivy_inf)
  | _ => Raise TypeError
  end.

(** [lambda x: _check_float64(x)] on a leaf *)
Definition check_float64_leaf (x : PyVal) : Result bool :=
  match x with
  | VNum v => _check_float64 v
  | _ => Raise TypeError
  end.

(** [isinstance(item, (list, tuple, dict)) and len(item) == 0] *)
Definition is_empty_container (item : PyVal) : bool :=
  match item with
  | VList [] | VTuple [] | VDict [] => true
  | _ => false
  end.

(** ** The functions of [data_type.py] *)

Definition set_dtype_stack (s : list string) (g : Globals) : Globals :=
  mkGlobals s (default_float_dtype_stack g) (default_int_dtype_stack g)
    (imported g).

Definition set_float_dtype_stack (s : list string) (g : Globals) : Globals :=
  mkGlobals (default_dtype_stack g) s (default_int_dtype_stack g)
    (imported g).

Definition set_int_dtype_stack (s : list string) (g : Globals) : Globals :=
  mkGlobals (default_dtype_stack g) (default_float_dtype_stack g) s
    (imported g).

Definition log_import (path : string) (g : Globals) : Globals :=
  mkGlobals (default_dtype_stack g) (default_float_dtype_stack g)
    (default_int_dtype_stack g) (imported g ++ [path]).

Section DataType.

Context {B : Backend}.

(** [isinstance(x, (int, np.integer)) and not type(x) == bool] *)
Definition is_int_leaf (x : PyVal) : Result bool :=
  Ok match x with
     | VNum (PyInt _) => true
     | _ => false
     end.

(** [isinstance(x, (float, np.floating))] *)
Definition is_float_leaf (x : PyVal) : Result bool :=
  Ok match x with
     | VNum (PyFloat _) => true
     | _ => false
     end.

Definition is_int_dtype (dtype_in : PyVal) : Result bool :=
  match dtype_in with
  | VNativeArray dt =>
      let? s := as_ivy_dtype (DStr dt) in Ok (PyStr.contains "int" s)
  | VNdarray name => Ok (PyStr.contains "int" name)
  | VNum v =>
      Ok match v with
         | PyInt _ => true
         | _ => false
         end
  | VList _ | VTuple _ | VDict _ =>
      let? found := nested_indices_where dtype_in is_int_leaf [] in
      Ok (truthy found)
  | VDtype d =>
      let? s := as_ivy_dtype d in Ok (PyStr.contains "int" s)
  end.

Definition is_float_dtype (dtype_in : PyVal) : Result bool :=
  match dtype_in with
  | VNativeArray dt =>
      let? s := as_ivy_dtype (DStr dt) in Ok (PyStr.contains "float" s)
  | VNdarray name => Ok (PyStr.contains "float" name)
  | VNum v =>
      Ok match v with
         | PyFloat _ => true
         | _ => false
         end
  | VList _ | VTuple _ | VDict _ =>
      let? found := nested_indices_where dtype_in is_float_leaf [] in
      Ok (truthy found)
  | VDtype d =>
      let? s := as_ivy_dtype d in Ok (PyStr.contains "float" s)
  end.

(** The explicit-dtype branch shared by the three default queries:
    [as_native is True], [as_native is False], or neither. *)
Definition explicit_dtype (d : PyDtype) (as_native : option bool) : M PyDtype :=
  match as_native with
  | Some true => lift (as_native_dtype d)
  | Some false => lift (let? s := as_ivy_dtype d in Ok (DStr s))
  | None => ret d
  end.

(** The closing lines of the three default queries:
    [if as_native: return ivy.as_native_dtype(ret)] and
    [return ivy.as_ivy_dtype(ret)]. *)
Definition finish (r : PyDtype) (as_native : bool) : M PyDtype :=
  if as_native then lift (as_native_dtype r)
  else lift (let? s := as_ivy_dtype r in Ok (DStr s)).

(** [default_dtype] once [dtype] and [item] are out of the way: the read
    of the stacks.  [default_dtype()] is [default_dtype_of_stacks false]. *)
Definition default_dtype_of_stacks (as_native : bool) : M PyDtype :=
  g <- get;;
  let r :=
    match default_dtype_stack g with
    | [] =>
        match default_float_dtype_stack g with
        | [] => "float32"%string
        | _ :: _ => top (default_float_dtype_stack g)
        end
    | _ :: _ => top (default_dtype_stack g)
    end in
  finish (DStr r) as_native.

(** [def_dtype = default_dtype()] followed by the category test that
    keeps it or falls back. *)
Definition ambient_or (is_cat : PyVal -> Result bool) (fallback : string)
  : M PyDtype :=
  def_dtype <- default_dtype_of_stacks false;;
  keep <- lift (is_cat (VDtype def_dtype));;
  if keep then ret def_dtype else ret (DStr fallback).

Definition default_int_dtype (input : option PyVal)
    (int_dtype : option PyDtype) (as_native : option bool) : M PyDtype :=
  match int_dtype with
  | Some d => explicit_dtype d as_native
  | None =>
      let as_native := ivy_default as_native false in
      r <- match input with
           | Some (VNativeArray dt) => ret (DStr dt)
           | Some (VNdarray name) => ret (DNative name)
           | Some ((VList _ | VTuple _ | VDict _) as nest) =>
               big <- lift (nested_indices_where nest
                              (exceeds 9223372036854775807) []);;
               if truthy big then ret (DStr "uint64")
               else
                 mid <- lift (nested_indices_where nest
                                (exceeds 2147483647) []);;
                 if truthy mid then ret (DStr "int64")
                 else ambient_or is_int_dtype "int32"
           | Some (VNum v) =>
               if num_gt v (PyInt 9223372036854775807) && num_ne v ivy_inf
                  && negb (String.eqb backend "torch")
               then ret (DStr "uint64")
               else if num_gt v (PyInt 2147483647) && num_ne v ivy_inf
               then ret (DStr "int64")
               else ambient_or is_int_dtype "int32"
           | Some (VDtype _) => raise UnboundLocalError
           | None =>
               g <- get;;
               match default_int_dtype_stack g with
               | [] => ambient_or is_int_dtype "int32"
               | _ :: _ => ret (DStr (top (default_int_dtype_stack g)))
               end
           end;;
      finish r as_native
  end.

Definition default_float_dtype (input : option PyVal)
    (float_dtype : option PyDtype) (as_native : option bool) : M PyDtype :=
  match float_dtype with
  | Some d => explicit_dtype d as_native
  | None =>
      let as_native := ivy_default as_native false in
      r <- match input with
           | Some (VNativeArray dt) => ret (DStr dt)
           | Some (VNdarray name) => ret (DNative name)
           | Some ((VList _ | VTuple _ | VDict _) as nest) =>
               wide <- lift (nested_indices_where nest check_float64_leaf []);;
               if truthy wide then ret (DStr "float64")
               else ambient_or is_float_dtype "float32"
           | Some (VNum v) =>
               wide <- lift (_check_float64 v);;
               if wide then ret (DStr "float64")
               else ambient_or is_float_dtype "float32"
           | Some (VDtype _) => raise UnboundLocalError
           | None =>
               g <- get;;
               match default_float_dtype_stack g with
               | [] => ambient_or is_float_dtype "float32"
               | _ :: _ => ret (DStr (top (default_float_dtype_stack g)))
               end
           end;;
      finish r as_native
  end.

Definition default_dtype (dtype : option PyDtype) (item : option PyVal)
    (as_native : option bool) : M PyDtype :=
  match dtype with
  | Some d => explicit_dtype d as_native
  | None =>
      let as_native := ivy_default as_native false in
      match item with
      | Some it =>
          if is_empty_container it then default_dtype_of_stacks as_native
          else
            isfloat <- lift (is_float_dtype it);;
            if isfloat then default_float_dtype (Some it) None (Some as_native)
            else
              isint <- lift (is_int_dtype it);;
              if isint then default_int_dtype (Some it) None (Some as_native)
              else if as_native then lift (as_native_dtype (DStr "bool"))
              else ret (DStr "bool")
      | None => default_dtype_of_stacks as_native
      end
  end.

Definition set_default_dtype (dtype : PyDtype) : M unit :=
  s <- lift (as_ivy_dtype dtype);;
  g <- get;;
  put (set_dtype_stack (default_dtype_stack g ++ [s]) g).

Definition unset_default_dtype : M unit :=
  g <- get;;
  if truthy (default_dtype_stack g)
  then put (set_dtype_stack (removelast (default_dtype_stack g)) g)
  else ret tt.

Definition set_default_int_dtype (int_dtype : PyDtype) : M unit :=
  s <- lift (as_ivy_dtype int_dtype);;
  g <- get;;
  put (set_int_dtype_stack (default_int_dtype_stack g ++ [s]) g).

Definition unset_default_int_dtype : M unit :=
  g <- get;;
  if truthy (default_int_dtype_stack g)
  then put (set_int_dtype_stack (removelast (default_int_dtype_stack g)) g)
  else ret tt.

Definition set_default_float_dtype (float_dtype : PyDtype) : M unit :=
  s <- lift (as_ivy_dtype float_dtype);;
  g <- get;;
  put (set_float_dtype_stack (default_float_dtype_stack g ++ [s]) g).

Definition unset_default_float_dtype : M unit :=
  g <- get;;
  if truthy (default_float_dtype_stack g)
  then put (set_float_dtype_stack (removelast (default_float_dtype_stack g)) g)
  else ret tt.

Definition valid_dtype (dtype_in : option PyDtype) : Result bool :=
  match dtype_in with
  | None => Ok true
  | Some d => let? s := as_ivy_dtype d in Ok (PyStr.mem s valid_dtypes)
  end.

Definition invalid_dtype (dtype_in : option PyDtype) : Result bool :=
  match dtype_in with
  | None => Ok false
  | Some d => let? s := as_ivy_dtype d in Ok (PyStr.mem s invalid_dtypes)
  end.

Definition valid_backends : list string :=
  ["numpy"; "jax"; "tensorflow"; "torch"; "mxnet"]%string.

(** [importlib.import_module(path)]: the path is logged, found or not. *)
Definition import_module (path : string) : M (PyDtype -> Result string) :=
  g <- get;;
  put (log_import path g);;;
  match backend_module path with
  | Some m => ret m
  | None => raise ModuleNotFoundError
  end.

Definition convert_dtype (dtype_in : PyDtype) (backend_name : string)
  : M PyDtype :=
  if negb (PyStr.mem backend_name valid_backends)
  then raise (Exception ("Invalid backend passed, must be one of "
                         ++ PyStr.repr_list valid_backends))
  else
    ivy_backend_as_ivy_dtype <-
      import_module ("ivy.functional.backends." ++ backend_name);;
    s <- lift (ivy_backend_as_ivy_dtype dtype_in);;
    lift (as_native_dtype (DStr s)).

End DataType.

(** ** Sequences of [set_default_dtype] and [unset_default_dtype] calls *)

Inductive Call : Type :=
| CSet (dtype : PyDtype)
| CUnset.

Section Calls.

Context {B : Backend}.

Definition call (c : Call) : M unit :=
  match c with
  | CSet d => set_default_dtype d
  | CUnset => unset_default_dtype
  end.

(** The calls one after the other; an exception ends the run. *)
Fixpoint run (cs : list Call) : M unit :=
  match cs with
  | [] => ret tt
  | c :: rest => call c ;;; run rest
  end.

(** The dtypes handed to [set_default_dtype] are ones the backend knows. *)
Definition known (c : Call) : Prop :=
  match c with
  | CSet d => exists s, as_ivy_dtype d = Ok s
  | CUnset => True
  end.

End Calls.

(** Every [set_default_dtype] of the sequence is closed by a later
    [unset_default_dtype] of the sequence, in nesting order. *)
Inductive matched : list Call -> Prop :=
| matched_nil : matched []
| matched_pair (d : PyDtype) (inner rest : list Call) :
    matched inner -> matched rest ->
    matched (CSet d :: inner ++ CUnset :: rest).

(** ** The int and float stacks driven by call sequences *)

Section OtherStacks.

Context {B : Backend}.

Definition call_int (c : Call) : M unit :=
  match c with
  | CSet d => set_default_int_dtype d
  | CUnset => unset_default_int_dtype
  end.

Definition call_float (c : Call) : M unit :=
  match c with
  | CSet d => set_default_float_dtype d
  | CUnset => unset_default_float_dtype
  end.

(** The calls one after the other under a given reading of [Call]. *)
Fixpoint run_on (step : Call -> M unit) (cs : list Call) : M unit :=
  match cs with
  | [] => ret tt
  | c :: rest => step c ;;; run_on step rest
  end.

End OtherStacks.

(** ** The context managers [DefaultDtype], [DefaultFloatDtype], [DefaultIntDtype] *)

(** The [with] statement: [__enter__] runs first and its exception ends
    the statement; after the body [__exit__] runs, also when the body
    raised, and in that case a true return value of [__exit__] swallows
    the body's exception ([None] is then the outcome of the block).
    [exit] gives the truth value of what [__exit__] returns. *)
Definition with_block {A : Type} (enter : M unit) (exit : M bool)
    (body : M A) : M (option A) :=
  fun g =>
    match enter g with
    | (Raise e, g1) => (Raise e, g1)
    | (Ok _, g1) =>
        match body g1 with
        | (Ok a, g2) =>
            match exit g2 with
            | (Ok _, g3) => (Ok (Some a), g3)
            | (Raise e, g3) => (Raise e, g3)
            end
        | (Raise e, g2) =>
            match exit g2 with
            | (Ok true, g3) => (Ok None, g3)
            | (Ok false, g3) => (Raise e, g3)
            | (Raise e', g3) => (Raise e', g3)
            end
        end
    end.

(** What a block whose manager swallows exceptions leaves behind: the
    value of the body, or nothing when the body raised. *)
Definition outcome {A : Type} (r : Result A) : option A :=
  match r with
  | Ok a => Some a
  | Raise _ => None
  end.

Section ContextManagers.

Context {B : Backend}.

(** [__exit__] of the three classes: the matching unset, then
    [return self], an object and so a true value. *)
Definition DefaultDtype_exit : M bool := unset_default_dtype ;;; ret true.

Definition DefaultFloatDtype_exit : M bool :=
  unset_default_float_dtype ;;; ret true.

Definition DefaultIntDtype_exit : M bool :=
  unset_default_int_dtype ;;; ret true.

(** [with DefaultDtype(dtype): body] *)
Definition with_DefaultDtype {A : Type} (dtype : PyDtype) (body : M A)
  : M (option A) :=
  with_block (set_default_dtype dtype) DefaultDtype_exit body.

(** [with DefaultFloatDtype(float_dtype): body] *)
Definition with_DefaultFloatDtype {A : Type} (float_dtype : PyDtype)
    (body : M A) : M (option A) :=
  with_block (set_default_float_dtype float_dtype) DefaultFloatDtype_exit body.

(** [with DefaultIntDtype(int_dtype): body] *)
Definition with_DefaultIntDtype {A : Type} (int_dtype : PyDtype)
    (body : M A) : M (option A) :=
  with_block (set_default_int_dtype int_dtype) DefaultIntDtype_exit body.

End ContextManagers.

(** ** [function_unsupported_dtypes] and [function_supported_dtypes] *)

(** [valid.remove(d)]: the first occurrence goes. *)
Fixpoint remove_first (d : string) (l : list string) : list string :=
  match l with
  | [] => []
  | x :: rest => if String.eqb d x then rest else x :: remove_first d rest
  end.

Section FunctionDtypes.

Context {B : Backend}.

(** What the final [ivy.as_native_dtype(tuple(valid))] does with a tuple
    is the backend's business. *)
Variable Native : Type.
Variable as_native_dtype_of_tuple : list string -> Result Native.

(** [fn] is seen through [hasattr(fn, "unsupported_dtypes")]: the tuple
    under that attribute, if there is one.  The [backend] argument is not
    looked at. *)
Definition function_unsupported_dtypes (fn : option (list string))
    (backend_name : string) : list string :=
  match fn with
  | Some unsupported_dtypes => unsupported_dtypes ++ invalid_dtypes
  | None => invalid_dtypes
  end.

(** The list [valid] when the loop is over. *)
Definition supported_list (fn : option (list string))
    (backend_name : string) : list string :=
  fold_left
    (fun valid d => if PyStr.mem d valid then remove_first d valid else valid)
    (function_unsupported_dtypes fn backend_name)
    valid_dtypes.

Definition function_supported_dtypes (fn : option (list string))
    (backend_name : string) : Result Native :=
  as_native_dtype_of_tuple (supported_list fn backend_name).

End FunctionDtypes.

(** ** Strings made of given characters *)

(** Every character of the string passes the test. *)
Fixpoint all_chars (ok : ascii -> bool) (s : string) : bool :=
  match s with
  | EmptyString => true
  | String c rest => ok c && all_chars ok rest
  end.

Definition is_bit (c : ascii) : bool := Ascii.eqb c "0" || Ascii.eqb c "1".

Definition is_digit (c : ascii) : bool :=
  existsb (Ascii.eqb c) ["0"; "1"; "2"; "3"; "4"; "5"; "6"; "7"; "8"; "9"]%char.

(** ** Two backends to run the functions on *)

(** Modelled from the spec: the backends themselves are outside this file
    of the repository.  [example_backend name invalid] has the interface
    of the spec's Backend Capability Provider: a string is already
    canonical, a native handle is canonical under its own name when ivy
    knows the name, and the valid dtypes are ivy's dtypes less the invalid
    ones.  Its own module is the only backend module installed. *)
Definition example_as_ivy_dtype (d : PyDtype) : Result string :=
  match d with
  | DStr s => Ok s
  | DNative h => if PyStr.mem h ivy_dtypes then Ok h else Raise KeyError
  end.

Definition example_as_native_dtype (d : PyDtype) : Result PyDtype :=
  match d with
  | DStr s => if PyStr.mem s ivy_dtypes then Ok (DNative s) else Raise KeyError
  | DNative h => Ok (DNative h)
  end.

Definition example_backend (name : string) (invalid : list string) : Backend :=
  {| backend := name;
     as_ivy_dtype := example_as_ivy_dtype;
     as_native_dtype := example_as_native_dtype;
     valid_dtypes :=
       filter (fun s => negb (PyStr.mem s invalid)) ivy_dtypes;
     invalid_dtypes := invalid;
     backend_module := fun path =>
       if String.eqb path ("ivy.functional.backends." ++ name)
       then Some example_as_ivy_dtype else None;
     as_ivy_dtype_idem := fun _ s _ => eq_refl (Ok s);
     as_ivy_dtype_const := fun s _ => eq_refl (Ok s) |}.

Definition numpy_backend : Backend :=
  example_backend "numpy" ["bfloat16"]%string.

Definition torch_backend : Backend :=
  example_backend "torch" ["uint16"; "uint32"; "uint64"]%string.

(** The globals at import time: empty stacks, nothing imported. *)
Definition initial_globals : Globals := mkGlobals [] [] [] [].

(** The literals [3.5e38] and [-3.5e38]: [35 * 10**37] is an integer, and
    its conversion is the float nearest to it. *)
Definition float_3_5e38 : PyNum := PyFloat (PyFloat.of_Z (35 * 10 ^ 37)).

Definition float_minus_3_5e38 : PyNum :=
  PyFloat (SFopp (PyFloat.of_Z (35 * 10 ^ 37))).

Definition int64_max : Z := 9223372036854775807.
Definition int32_max : Z := 2147483647.

(** ** Basic facts *)

Section Facts.

Context {B : Backend}.

Lemma default_dtype_no_args (g : Globals) :
  default_dtype None None None g = default_dtype_of_stacks false g.
Proof. reflexivity. Qed.

Lemma finish_canonical (s : string) (g : Globals) :
  as_ivy_dtype (DStr s) = Ok s ->
  finish (DStr s) false g = (Ok (DStr s), g).
Proof.
  intros H. unfold finish, lift. now rewrite H.
Qed.

Lemma finish_const (s : string) (g : Globals) :
  In s ivy_dtypes -> finish (DStr s) false g = (Ok (DStr s), g).
Proof.
  intros H. apply finish_canonical. now apply as_ivy_dtype_const.
Qed.

(** A successful [default_dtype()] leaves the globals alone and returns a
    canonical string. *)
Lemma default_dtype_of_stacks_inv (g g' : Globals) (r : PyDtype) :
  default_dtype_of_stacks false g = (Ok r, g') ->
  g' = g /\ exists s, r = DStr s /\ as_ivy_dtype (DStr s) = Ok s.
Proof.
  unfold default_dtype_of_stacks, bind, get, finish, lift.
  set (d := DStr _). intros H.
  destruct (as_ivy_dtype d) as [s|e] eqn:E; simpl in H; inversion H; subst.
  split; [reflexivity|]. exists s. split; [reflexivity|].
  now apply (as_ivy_dtype_idem d).
Qed.

Lemma default_dtype_of_stacks_globals (a : bool) (g : Globals) :
  snd (default_dtype_of_stacks a g) = g.
Proof.
  unfold default_dtype_of_stacks, bind, get, finish, lift.
  now destruct a.
Qed.

(** [def_dtype = default_dtype()] kept when its name has the category
    word in it, the fallback otherwise. *)
Lemma ambient_or_int (g : Globals) (d0 : string) :
  default_dtype_of_stacks false g = (Ok (DStr d0), g) ->
  ambient_or is_int_dtype "int32" g =
    (Ok (DStr (if PyStr.contains "int" d0 then d0 else "int32")), g).
Proof.
  intros H. unfold ambient_or, bind. rewrite H.
  destruct (default_dtype_of_stacks_inv _ _ _ H) as [_ [s [Es Hs]]].
  inversion Es; subst s. unfold lift. simpl. rewrite Hs. simpl.
  now destruct (PyStr.contains "int" d0).
Qed.

Lemma ambient_or_float (g : Globals) (d0 : string) :
  default_dtype_of_stacks false g = (Ok (DStr d0), g) ->
  ambient_or is_float_dtype "float32" g =
    (Ok (DStr (if PyStr.contains "float" d0 then d0 else "float32")), g).
Proof.
  intros H. unfold ambient_or, bind. rewrite H.
  destruct (default_dtype_of_stacks_inv _ _ _ H) as [_ [s [Es Hs]]].
  inversion Es; subst s. unfold lift. simpl. rewrite Hs. simpl.
  now destruct (PyStr.contains "float" d0).
Qed.

(** The category test agrees with the returned name: what [ambient_or]
    returns is canonical. *)
Lemma ambient_choice_canonical (d0 word fallback : string) :
  as_ivy_dtype (DStr d0) = Ok d0 ->
  In fallback ivy_dtypes ->
  as_ivy_dtype (DStr (if PyStr.contains word d0 then d0 else fallback)) =
    Ok (if PyStr.contains word d0 then d0 else fallback).
Proof.
  intros H Hf. destruct (PyStr.contains word d0); [exact H|].
  now apply as_ivy_dtype_const.
Qed.

End Facts.

(** ** Integer widening *)

Lemma Qlt_bool_true (a b : Q) : PyFloat.Qlt_bool a b = true <-> (a < b)%Q.
Proof.
  unfold PyFloat.Qlt_bool. rewrite negb_true_iff.
  split; intros H.
  - apply Qnot_le_lt. intros L. apply Qle_bool_iff in L. congruence.
  - destruct (Qle_bool b a) eqn:E; [|reflexivity].
    apply Qle_bool_iff in E. exfalso. now apply (Qlt_not_le a b).
Qed.

(** A number above an int is above every smaller int. *)
Lemma num_gt_int_mono (v : PyNum) (a b : Z) :
  b <= a -> num_gt v (PyInt a) = true -> num_gt v (PyInt b) = true.
Proof.
  intros Hab. unfold num_gt. cbn [num_value].
  destruct (num_value v) as [| | |q]; try easy.
  rewrite !Qlt_bool_true. intros H.
  apply Qle_lt_trans with (y := inject_Z a); [|exact H].
  now rewrite <- Zle_Qle.
Qed.

Lemma num_gt_int (a b : Z) : num_gt (PyInt a) (PyInt b) = (b <? a).
Proof.
  unfold num_gt. cbn [num_value].
  destruct (b <? a) eqn:E.
  - apply Qlt_bool_true. rewrite <- Zlt_Qlt. now apply Z.ltb_lt.
  - destruct (PyFloat.Qlt_bool (inject_Z b) (inject_Z a)) eqn:F; [|reflexivity].
    apply Qlt_bool_true in F. rewrite <- Zlt_Qlt in F.
    apply Z.ltb_lt in F. congruence.
Qed.

(** C1, as the code has it: for a scalar number [v] other than the infinity
    sentinel, with no explicit [int_dtype] and [as_native] unset or false,
    [default_int_dtype(input=v)] returns "uint64" when [v] exceeds
    9223372036854775807 and the backend is not "torch"; "int64" when [v]
    exceeds 2147483647 and either does not exceed 9223372036854775807 or
    the backend is "torch"; and otherwise the value of [default_dtype()]
    when its name is an integer one, else "int32".  The globals are left
    as they were. *)
Theorem default_int_dtype_scalar {B : Backend} (v : PyNum)
    (as_native : option bool) (g : Globals) :
  num_ne v ivy_inf = true ->
  as_native <> Some true ->
  (num_gt v (PyInt int64_max) = true ->
   backend <> "torch"%string ->
   default_int_dtype (Some (VNum v)) None as_native g =
     (Ok (DStr "uint64"), g))
  /\
  (num_gt v (PyInt int32_max) = true ->
   num_gt v (PyInt int64_max) = false \/ backend = "torch"%string ->
   default_int_dtype (Some (VNum v)) None as_native g =
     (Ok (DStr "int64"), g))
  /\
  (forall d0 : string,
   num_gt v (PyInt int32_max) = false ->
   default_dtype None None None g = (Ok (DStr d0), g) ->
   default_int_dtype (Some (VNum v)) None as_native g =
     (Ok (DStr (if PyStr.contains "int" d0 then d0 else "int32")), g)).
Proof.
  intros Hinf Hnat.
  assert (Hn : ivy_default as_native false = false).
  { destruct as_native as [[|]|]; try reflexivity. now elim Hnat. }
  unfold default_int_dtype. rewrite Hn. unfold int64_max, int32_max.
  rewrite Hinf, !andb_true_r.
  repeat split.
  - intros H64 Ht. apply String.eqb_neq in Ht.
    rewrite H64, Ht. cbn [andb negb]. unfold bind, ret.
    apply finish_const. simpl. tauto.
  - intros H32 Hor.
    assert (E : num_gt v (PyInt 9223372036854775807)
                && negb (String.eqb backend "torch") = false).
    { destruct Hor as [H|H].
      - now rewrite H.
      - apply String.eqb_eq in H. rewrite H. apply andb_false_r. }
    rewrite E, H32. unfold bind, ret. apply finish_const. simpl. tauto.
  - intros d0 H32 Hd.
    assert (H64 : num_gt v (PyInt 9223372036854775807) = false).
    { destruct (num_gt v (PyInt 9223372036854775807)) eqn:E; [|reflexivity].
      rewrite (num_gt_int_mono v 9223372036854775807 2147483647) in H32;
        [discriminate | lia | exact E]. }
    rewrite H64, H32. cbn [andb]. unfold bind at 1.
    rewrite default_dtype_no_args in Hd.
    rewrite (ambient_or_int g d0 Hd).
    apply finish_canonical. apply ambient_choice_canonical.
    + destruct (default_dtype_of_stacks_inv _ _ _ Hd) as [_ [s [Es Hs]]].
      now inversion Es; subst.
    + simpl. tauto.
Qed.

(** An instance: the torch-like backend, empty stacks, and the inputs
    5, 2147483648 and 9223372036854775808 of the specification. *)
Lemma default_int_dtype_scalar_witness :
  default_int_dtype (B := numpy_backend)
    (Some (VNum (PyInt 9223372036854775808))) None None initial_globals =
    (Ok (DStr "uint64"), initial_globals)
  /\ default_int_dtype (B := torch_backend)
    (Some (VNum (PyInt 9223372036854775808))) None None initial_globals =
    (Ok (DStr "int64"), initial_globals)
  /\ default_int_dtype (B := numpy_backend)
    (Some (VNum (PyInt 5))) None None initial_globals =
    (Ok (DStr "int32"), initial_globals).
Proof.
  split; [|split].
  - apply (default_int_dtype_scalar (B := numpy_backend)
             (PyInt 9223372036854775808) None initial_globals);
      [reflexivity | discriminate | reflexivity | discriminate].
  - apply (default_int_dtype_scalar (B := torch_backend)
             (PyInt 9223372036854775808) None initial_globals);
      [reflexivity | discriminate | reflexivity | right; reflexivity].
  - apply (proj2 (proj2 (default_int_dtype_scalar (B := numpy_backend)
             (PyInt 5) None initial_globals eq_refl
             ltac:(discriminate))) "float32"%string);
      reflexivity.
Defined.

(** C1 as the specification words it does not hold: "int64" is promised
    only up to 9223372036854775807 and everything else is handed to the
    ambient default, but under a backend named "torch" the code answers
    "int64" for 9223372036854775808. *)
Lemma default_int_dtype_scalar_as_stated_fails :
  ~ (forall (B : Backend) (v : PyNum) (g : Globals) (d0 : string),
       num_ne v ivy_inf = true ->
       default_dtype None None None g = (Ok (DStr d0), g) ->
       default_int_dtype (Some (VNum v)) None None g =
         (Ok (DStr
            (if num_gt v (PyInt int64_max) && negb (String.eqb backend "torch")
             then "uint64"
             else if num_gt v (PyInt int32_max)
                     && negb (num_gt v (PyInt int64_max))
             then "int64"
             else if PyStr.contains "int" d0 then d0 else "int32")), g)).
Proof.
  intros H.
  specialize (H torch_backend (PyInt 9223372036854775808) initial_globals
                "float32"%string eq_refl eq_refl).
  vm_compute in H. discriminate H.
Qed.

(** C2 fails on the code: under a backend named "torch" the scalar
    9223372036854775808 is answered with "int64" (the uint64 rule is
    suppressed), while the list holding that same number is answered with
    "uint64" (the rule is not suppressed in the container branch). *)
Theorem default_int_dtype_container_not_suppressed :
  default_int_dtype (B := torch_backend)
    (Some (VNum (PyInt 9223372036854775808))) None None initial_globals =
    (Ok (DStr "int64"), initial_globals)
  /\ default_int_dtype (B := torch_backend)
    (Some (VList [VNum (PyInt 9223372036854775808)])) None None
    initial_globals =
    (Ok (DStr "uint64"), initial_globals).
Proof. split; vm_compute; reflexivity. Qed.

(** ** Float widening *)

Lemma ivy_default_not_native (as_native : option bool) :
  as_native <> Some true -> ivy_default as_native false = false.
Proof.
  destruct as_native as [[|]|]; try reflexivity. intros H. now elim H.
Qed.

(** [_check_float64] on a finite number above the bound, once
    [int(tmp[0])] has gone through: the first disjunct decides. *)
Lemma check_float64_above_max (v : PyNum) (n : Z) :
  math_isfinite v = Ok true ->
  PyStr.to_int (integer_part_str v) = Ok n ->
  num_gt v float32_max_check = true ->
  _check_float64 v = Ok true.
Proof.
  intros Hfin Hint Hgt. unfold _check_float64.
  rewrite Hfin. cbn [rbind]. rewrite Hint. cbn [rbind].
  now rewrite Hgt.
Qed.

Lemma check_float64_non_finite (f : PyFloat.float) :
  PyFloat.isfinite f = false -> _check_float64 (PyFloat f) = Ok false.
Proof.
  intros H. unfold _check_float64, math_isfinite. now rewrite H.
Qed.

(** [default_float_dtype] on a scalar follows [_check_float64]. *)
Lemma default_float_dtype_scalar_wide {B : Backend} (v : PyNum)
    (as_native : option bool) (g : Globals) :
  as_native <> Some true ->
  _check_float64 v = Ok true ->
  default_float_dtype (Some (VNum v)) None as_native g =
    (Ok (DStr "float64"), g).
Proof.
  intros Hn Hc. unfold default_float_dtype.
  rewrite (ivy_default_not_native _ Hn).
  unfold bind, lift. rewrite Hc. unfold ret.
  apply finish_const. simpl. tauto.
Qed.

Lemma default_float_dtype_scalar_narrow {B : Backend} (v : PyNum)
    (as_native : option bool) (g : Globals) (d0 : string) :
  as_native <> Some true ->
  _check_float64 v = Ok false ->
  default_dtype None None None g = (Ok (DStr d0), g) ->
  default_float_dtype (Some (VNum v)) None as_native g =
    (Ok (DStr (if PyStr.contains "float" d0 then d0 else "float32")), g).
Proof.
  intros Hn Hc Hd. unfold default_float_dtype.
  rewrite (ivy_default_not_native _ Hn).
  unfold bind at 1. unfold bind at 1. unfold lift at 1. rewrite Hc.
  rewrite default_dtype_no_args in Hd.
  rewrite (ambient_or_float g d0 Hd).
  apply finish_canonical. apply ambient_choice_canonical.
  - destruct (default_dtype_of_stacks_inv _ _ _ Hd) as [_ [s [Es Hs]]].
    now inversion Es; subst.
  - simpl. tauto.
Qed.

(** [str] of some floats, as CPython prints them: [0.1], [0.5],
    [123456789.0], [1e16], [1e22], and the bound [3.4028235 * 10**38]. *)
Example py_str_samples :
  py_str (PyFloat (S754_finite false 7205759403792794 (-56))) = "0.1"%string
  /\ py_str (PyFloat (S754_finite false 4503599627370496 (-53))) = "0.5"%string
  /\ py_str (PyFloat (PyFloat.of_Z 123456789)) = "123456789.0"%string
  /\ py_str (PyFloat (PyFloat.of_Z (10 ^ 16))) = "1e+16"%string
  /\ py_str (PyFloat (PyFloat.of_Z (10 ^ 22))) = "1e+22"%string
  /\ py_str float32_max_check = "3.4028234999999995e+38"%string.
Proof. repeat split; vm_compute; reflexivity. Qed.

(** The steps of [_check_float64(-3.5e38)]: the integer part of the
    string, its binary digits, the exponent (with
    [10**38 <= 3.5e38 < 10**39]), and the comparison with the bound. *)
Example check_float64_minus_3_5e38_steps :
  math_isfinite float_minus_3_5e38 = Ok true
  /\ integer_part_str float_minus_3_5e38 = "3"%string
  /\ PyStr.replace "0b" "" (PyStr.bin 3) = "11"%string
  /\ floor_log10_abs float_minus_3_5e38 = 38
  /\ (10 ^ 38 <= PyFloat.to_Q (PyFloat.of_Z (35 * 10 ^ 37)) < 10 ^ 39)%Q
  /\ num_gt float_minus_3_5e38 float32_max_check = false.
Proof.
  repeat split; vm_compute; try reflexivity; discriminate.
Qed.

(** The check at [3.5e38], and at a float that prints without a
    fractional part. *)
Example check_float64_3_5e38 : _check_float64 float_3_5e38 = Ok true.
Proof. vm_compute. reflexivity. Qed.

Example str_minus_3_5e38 : py_str float_minus_3_5e38 = "-3.5e+38"%string.
Proof. vm_compute. reflexivity. Qed.

Example check_float64_4e38 :
  py_str (PyFloat (PyFloat.of_Z (4 * 10 ^ 38))) = "4e+38"%string
  /\ _check_float64 (PyFloat (PyFloat.of_Z (4 * 10 ^ 38))) = Raise ValueError.
Proof. split; vm_compute; reflexivity. Qed.

(** C3 fails on the code: [-3.5e38] is finite and its absolute value
    [3.5e38] is above the bound [3.4028235 * 10**38], yet
    [_check_float64(-3.5e38)] is false, since the bound is compared with
    the signed input; [default_float_dtype(input=-3.5e38)] is then
    "float32" on empty stacks, as a scalar and as a list element, while
    [3.5e38] is answered with "float64". *)
Theorem default_float_dtype_negative_not_widened :
  num_gt float_3_5e38 float32_max_check = true
  /\ _check_float64 float_minus_3_5e38 = Ok false
  /\ default_float_dtype (B := numpy_backend)
       (Some (VNum float_minus_3_5e38)) None None initial_globals =
       (Ok (DStr "float32"), initial_globals)
  /\ default_float_dtype (B := numpy_backend)
       (Some (VList [VNum float_minus_3_5e38])) None None initial_globals =
       (Ok (DStr "float32"), initial_globals)
  /\ default_float_dtype (B := numpy_backend)
       (Some (VNum float_3_5e38)) None None initial_globals =
       (Ok (DStr "float64"), initial_globals).
Proof. repeat split; vm_compute; reflexivity. Qed.

(** C4, as the code has it: [default_float_dtype(input=3.5e38)] returns
    "float64", whatever the backend and the stacks, and so does
    [default_float_dtype(input=v)] for every finite number [v] above
    [3.4028235 * 10**38] for which [int(tmp[0])] goes through, with no
    explicit [float_dtype] and [as_native] unset or false. *)
Theorem default_float_dtype_above_max {B : Backend}
    (as_native : option bool) (g : Globals) :
  as_native <> Some true ->
  default_float_dtype (Some (VNum float_3_5e38)) None as_native g =
    (Ok (DStr "float64"), g)
  /\
  (forall (v : PyNum) (n : Z),
     math_isfinite v = Ok true ->
     num_gt v float32_max_check = true ->
     PyStr.to_int (integer_part_str v) = Ok n ->
     default_float_dtype (Some (VNum v)) None as_native g =
       (Ok (DStr "float64"), g)).
Proof.
  intros Hn. split.
  - apply default_float_dtype_scalar_wide; [exact Hn|].
    exact check_float64_3_5e38.
  - intros v n Hfin Hgt Hint.
    apply default_float_dtype_scalar_wide; [exact Hn|].
    now apply (check_float64_above_max v n).
Qed.

(** An instance: the float next above the bound, [3.4028235e38], whose
    [str] is "3.4028235e+38". *)
Lemma default_float_dtype_above_max_witness :
  default_float_dtype (B := numpy_backend)
    (Some (VNum float_3_5e38)) None None initial_globals =
    (Ok (DStr "float64"), initial_globals)
  /\ py_str (PyFloat (S754_finite false 9007198806847480 75)) =
       "3.4028235e+38"%string
  /\ default_float_dtype (B := numpy_backend)
       (Some (VNum (PyFloat (S754_finite false 9007198806847480 75))))
       None None initial_globals =
       (Ok (DStr "float64"), initial_globals).
Proof.
  split; [|split].
  - apply (default_float_dtype_above_max (B := numpy_backend) None
             initial_globals); discriminate.
  - vm_compute. reflexivity.
  - apply (proj2 (default_float_dtype_above_max (B := numpy_backend) None
                    initial_globals ltac:(discriminate))
             (PyFloat (S754_finite false 9007198806847480 75)) 3);
      vm_compute; reflexivity.
Defined.

(** C4 as the specification words it does not hold: on empty stacks
    [default_float_dtype(input=3.5e38)] is not "float32". *)
Lemma default_float_dtype_3_5e38_as_stated_fails :
  fst (default_float_dtype (B := numpy_backend)
         (Some (VNum float_3_5e38)) None None initial_globals)
  <> Ok (DStr "float32").
Proof. vm_compute. discriminate. Qed.

(** C5: for a non-finite float [f] (NaN, infinity, minus infinity), with
    no explicit [float_dtype] and [as_native] unset or false,
    [_check_float64(f)] is false and [default_float_dtype(input=f)]
    returns the value of [default_dtype()] when its name is a float one,
    else "float32". *)
Theorem default_float_dtype_non_finite {B : Backend} (f : PyFloat.float)
    (as_native : option bool) (g : Globals) (d0 : string) :
  PyFloat.isfinite f = false ->
  as_native <> Some true ->
  default_dtype None None None g = (Ok (DStr d0), g) ->
  _check_float64 (PyFloat f) = Ok false
  /\ default_float_dtype (Some (VNum (PyFloat f))) None as_native g =
       (Ok (DStr (if PyStr.contains "float" d0 then d0 else "float32")), g).
Proof.
  intros Hf Hn Hd. split.
  - now apply check_float64_non_finite.
  - apply default_float_dtype_scalar_narrow; try assumption.
    now apply check_float64_non_finite.
Qed.

(** An instance: NaN on empty stacks, and minus infinity with "int32"
    pushed as the general default. *)
Lemma default_float_dtype_non_finite_witness :
  (_check_float64 (PyFloat PyFloat.nan) = Ok false
   /\ default_float_dtype (B := numpy_backend)
        (Some (VNum (PyFloat PyFloat.nan))) None None initial_globals =
        (Ok (DStr "float32"), initial_globals))
  /\ (_check_float64 (PyFloat PyFloat.neg_inf) = Ok false
      /\ default_float_dtype (B := numpy_backend)
           (Some (VNum (PyFloat PyFloat.neg_inf))) None (Some false)
           (mkGlobals ["int32"%string] [] [] []) =
           (Ok (DStr "float32"), mkGlobals ["int32"%string] [] [] [])).
Proof.
  split.
  - apply (default_float_dtype_non_finite (B := numpy_backend) PyFloat.nan
             None initial_globals "float32");
      [reflexivity | discriminate | reflexivity].
  - apply (default_float_dtype_non_finite (B := numpy_backend)
             PyFloat.neg_inf (Some false)
             (mkGlobals ["int32"%string] [] [] []) "int32");
      [reflexivity | discriminate | reflexivity].
Defined.

(** ** The explicit-dtype short circuit *)

(** C6, as the code has it: with an explicit dtype given, each of
    [default_dtype], [default_int_dtype] and [default_float_dtype] returns
    at once: the native conversion when [as_native] is [True], the
    canonical name when [as_native] is [False], and the explicit dtype
    itself, unchanged, when [as_native] is unset.  The globals are not
    changed, and neither they nor [item]/[input] bear on the result. *)
Theorem explicit_dtype_short_circuit {B : Backend} (d : PyDtype)
    (x : option PyVal) (as_native : option bool) (g : Globals) :
  let answer :=
    match as_native with
    | Some true => as_native_dtype d
    | Some false => let? s := as_ivy_dtype d in Ok (DStr s)
    | None => Ok d
    end in
  default_dtype (Some d) x as_native g = (answer, g)
  /\ default_int_dtype x (Some d) as_native g = (answer, g)
  /\ default_float_dtype x (Some d) as_native g = (answer, g)
  /\ (forall (x' : option PyVal) (g' : Globals),
        fst (default_dtype (Some d) x' as_native g') = answer
        /\ fst (default_int_dtype x' (Some d) as_native g') = answer
        /\ fst (default_float_dtype x' (Some d) as_native g') = answer).
Proof.
  unfold default_dtype, default_int_dtype, default_float_dtype,
    explicit_dtype.
  destruct as_native as [[|]|]; cbn; repeat split; reflexivity.
Qed.

(** C6 as the specification words it does not hold: with [as_native]
    unset, a native handle given as the explicit dtype comes back as it
    is, not as its canonical name. *)
Lemma explicit_dtype_as_stated_fails :
  ~ (forall (B : Backend) (d : PyDtype) (x : option PyVal)
            (as_native : option bool) (g : Globals),
       default_dtype (Some d) x as_native g =
         (match as_native with
          | Some true => as_native_dtype d
          | _ => let? s := as_ivy_dtype d in Ok (DStr s)
          end, g)).
Proof.
  intros H.
  specialize (H numpy_backend (DNative "float32") None None initial_globals).
  vm_compute in H. discriminate H.
Qed.

(** ** Stack discipline *)

Section Stack.

Context {B : Backend}.

Lemma run_app (a b : list Call) (g : Globals) :
  run (a ++ b) g =
    match run a g with
    | (Ok _, g') => run b g'
    | (Raise e, g') => (Raise e, g')
    end.
Proof.
  revert g. induction a as [|c a IH]; intros g; [reflexivity|].
  cbn [app run]. unfold bind.
  destruct (call c g) as [[u|e] g1]; [apply IH | reflexivity].
Qed.

Lemma set_default_dtype_known (d : PyDtype) (s : string) (g : Globals) :
  as_ivy_dtype d = Ok s ->
  set_default_dtype d g =
    (Ok tt, set_dtype_stack (default_dtype_stack g ++ [s]) g).
Proof.
  intros H. unfold set_default_dtype, bind, lift, get, put. now rewrite H.
Qed.

Lemma unset_after_set (s : string) (g : Globals) :
  unset_default_dtype (set_dtype_stack (default_dtype_stack g ++ [s]) g) =
    (Ok tt, g).
Proof.
  unfold unset_default_dtype, bind, get, put.
  cbn [default_dtype_stack set_dtype_stack].
  assert (T : truthy (default_dtype_stack g ++ [s]) = true)
    by now destruct (default_dtype_stack g).
  rewrite T, removelast_last. now destruct g.
Qed.

Lemma unset_default_dtype_empty (g : Globals) :
  default_dtype_stack g = [] -> unset_default_dtype g = (Ok tt, g).
Proof.
  intros H. unfold unset_default_dtype, bind, get. now rewrite H.
Qed.

Lemma run_matched (cs : list Call) :
  matched cs -> Forall known cs -> forall g, run cs g = (Ok tt, g).
Proof.
  induction 1 as [|d inner rest Hi IHi Hr IHr]; intros Hk g.
  - reflexivity.
  - inversion Hk as [|c l Hd Hk']; subst.
    destruct Hd as [s Hs].
    apply Forall_app in Hk'. destruct Hk' as [Hki Hkr].
    inversion Hkr as [|c l _ Hkr']; subst.
    cbn [run call]. unfold bind at 1.
    rewrite (set_default_dtype_known d s g Hs).
    rewrite run_app, (IHi Hki).
    cbn [run call]. unfold bind at 1.
    rewrite unset_after_set. now apply IHr.
Qed.

End Stack.

(** C7: a sequence of [set_default_dtype]/[unset_default_dtype] calls in
    which every set is closed by a later unset, the dtypes set being known
    to the backend, runs without an exception and leaves the globals, and
    so the value of [default_dtype()], as they were before; and
    [unset_default_dtype()] on an empty stack returns without an exception
    and changes nothing. *)
Theorem default_dtype_stack_discipline {B : Backend} (cs : list Call)
    (g : Globals) :
  matched cs ->
  Forall known cs ->
  run cs g = (Ok tt, g)
  /\ default_dtype None None None (snd (run cs g)) =
       default_dtype None None None g
  /\ (forall g0 : Globals,
        default_dtype_stack g0 = [] -> unset_default_dtype g0 = (Ok tt, g0)).
Proof.
  intros Hm Hk. pose proof (run_matched cs Hm Hk g) as Hr.
  split; [exact Hr|]. split.
  - now rewrite Hr.
  - exact unset_default_dtype_empty.
Qed.

(** An instance: two nested overrides and one more after them, on a stack
    that already holds "int32". *)
Lemma default_dtype_stack_discipline_witness :
  let cs := [CSet (DStr "float64"); CSet (DNative "int8"); CUnset; CUnset;
             CSet (DStr "bool"); CUnset] in
  let g := mkGlobals ["int32"%string] [] [] [] in
  run (B := numpy_backend) cs g = (Ok tt, g)
  /\ default_dtype (B := numpy_backend) None None None
       (snd (run (B := numpy_backend) cs g)) =
       default_dtype (B := numpy_backend) None None None g
  /\ (forall g0 : Globals,
        default_dtype_stack g0 = [] ->
        unset_default_dtype g0 = (Ok tt, g0)).
Proof.
  apply (default_dtype_stack_discipline (B := numpy_backend)).
  - apply (matched_pair (DStr "float64")
             [CSet (DNative "int8"); CUnset]
             [CSet (DStr "bool"); CUnset]).
    + apply (matched_pair (DNative "int8") [] []); constructor.
    + apply (matched_pair (DStr "bool") [] []); constructor.
  - repeat constructor; simpl; eexists; reflexivity.
Defined.

(** ** Validity *)

Lemma mem_in_dec (x : string) (l : list string) :
  PyStr.mem x l = if in_dec string_dec x l then true else false.
Proof.
  unfold PyStr.mem. destruct (in_dec string_dec x l) as [H|H].
  - apply existsb_exists. exists x. split; [exact H | apply String.eqb_refl].
  - destruct (existsb (String.eqb x) l) eqn:E; [|reflexivity].
    apply existsb_exists in E. destruct E as [y [Hy Exy]].
    apply String.eqb_eq in Exy. subst y. contradiction.
Qed.

(** C8: [valid_dtype(None)] is [True] and [invalid_dtype(None)] is
    [False]; for a dtype [d] that is not [None], [valid_dtype(d)] is
    whether [as_ivy_dtype(d)] is in the backend's [valid_dtypes] (and
    likewise [invalid_dtype(d)] with [invalid_dtypes]); an exception of
    [as_ivy_dtype] is passed on. *)
Theorem valid_dtype_membership {B : Backend} :
  valid_dtype None = Ok true
  /\ invalid_dtype None = Ok false
  /\ (forall d : PyDtype,
        valid_dtype (Some d) =
          let? s := as_ivy_dtype d in
          Ok (if in_dec string_dec s valid_dtypes then true else false))
  /\ (forall d : PyDtype,
        invalid_dtype (Some d) =
          let? s := as_ivy_dtype d in
          Ok (if in_dec string_dec s invalid_dtypes then true else false)).
Proof.
  repeat split; intros d; cbn [valid_dtype invalid_dtype];
    destruct (as_ivy_dtype d) as [s|e]; cbn [rbind];
    try reflexivity; now rewrite mem_in_dec.
Qed.

Example valid_dtype_torch :
  valid_dtype (B := torch_backend) (Some (DStr "uint64")) = Ok false
  /\ invalid_dtype (B := torch_backend) (Some (DNative "uint64")) = Ok true
  /\ valid_dtype (B := torch_backend) (Some (DNative "float32")) = Ok true
  /\ valid_dtype (B := torch_backend) (Some (DNative "complex")) =
       Raise KeyError.
Proof. repeat split. Qed.

(** ** [convert_dtype] *)

Lemma mem_false_not_in (x : string) (l : list string) :
  ~ In x l -> PyStr.mem x l = false.
Proof.
  intros H. rewrite mem_in_dec. now destruct (in_dec string_dec x l).
Qed.

(** C9: for a backend name outside "numpy", "jax", "tensorflow", "torch"
    and "mxnet", [convert_dtype(d, name)] raises, for every [d], an
    [Exception] whose message spells out the five names, and the globals
    are as before: no module path was handed to the import. *)
Theorem convert_dtype_unknown_backend {B : Backend} (d : PyDtype)
    (name : string) (g : Globals) :
  ~ In name ["numpy"; "jax"; "tensorflow"; "torch"; "mxnet"]%string ->
  let msg :=
    "Invalid backend passed, must be one of ['numpy', 'jax', 'tensorflow', 'torch', 'mxnet']"%string in
  convert_dtype d name g = (Raise (Exception msg), g)
  /\ imported (snd (convert_dtype d name g)) = imported g
  /\ Forall (fun b => PyStr.contains (PyStr.repr_str b) msg = true)
       ["numpy"; "jax"; "tensorflow"; "torch"; "mxnet"]%string.
Proof.
  intros Hnot msg.
  assert (E : convert_dtype d name g = (Raise (Exception msg), g)).
  { unfold convert_dtype.
    change valid_backends
      with ["numpy"; "jax"; "tensorflow"; "torch"; "mxnet"]%string.
    now rewrite (mem_false_not_in _ _ Hnot). }
  split; [exact E|]. split; [now rewrite E|].
  repeat constructor.
Qed.

Lemma convert_dtype_unknown_backend_witness :
  convert_dtype (B := numpy_backend) (DStr "float32") "not-a-backend"
    initial_globals =
    (Raise (Exception
       "Invalid backend passed, must be one of ['numpy', 'jax', 'tensorflow', 'torch', 'mxnet']"),
     initial_globals).
Proof.
  apply (convert_dtype_unknown_backend (B := numpy_backend) (DStr "float32")
           "not-a-backend" initial_globals).
  simpl. intros H. repeat (destruct H as [H|H]; [discriminate H|]). exact H.
Defined.

(** A known name does reach the import. *)
Example convert_dtype_known_backend :
  convert_dtype (B := numpy_backend) (DNative "int8") "numpy" initial_globals =
    (Ok (DNative "int8"),
     mkGlobals [] [] [] ["ivy.functional.backends.numpy"%string])
  /\ convert_dtype (B := numpy_backend) (DNative "int8") "jax" initial_globals =
    (Raise ModuleNotFoundError,
     mkGlobals [] [] [] ["ivy.functional.backends.jax"%string]).
Proof. split; reflexivity. Qed.

(** ** [default_dtype] on an item *)

(** C10: for an [item] that is not an empty list, tuple or dict and that
    neither [is_float_dtype] nor [is_int_dtype] accepts,
    [default_dtype(item=item)] returns "bool", or the native bool dtype
    when [as_native] is set, whatever the stacks hold; for an empty list,
    tuple or dict it returns what [default_dtype()] returns under the same
    [as_native]. *)
Theorem default_dtype_bool_item {B : Backend} (item : PyVal)
    (as_native : option bool) (g : Globals) :
  (is_empty_container item = false ->
   is_float_dtype item = Ok false ->
   is_int_dtype item = Ok false ->
   default_dtype None (Some item) as_native g =
     (if ivy_default as_native false then as_native_dtype (DStr "bool")
      else Ok (DStr "bool"), g))
  /\
  (is_empty_container item = true ->
   default_dtype None (Some item) as_native g =
     default_dtype None None as_native g).
Proof.
  split.
  - intros He Hf Hi. unfold default_dtype. rewrite He.
    unfold bind, lift. rewrite Hf, Hi.
    now destruct (ivy_default as_native false).
  - intros He. unfold default_dtype. now rewrite He.
Qed.

(** Instances: [True], a list of booleans under a pushed default, asked
    natively, and an empty list under that same default. *)
Lemma default_dtype_bool_item_witness :
  default_dtype (B := numpy_backend) None (Some (VNum (PyBool true))) None
    initial_globals = (Ok (DStr "bool"), initial_globals)
  /\ default_dtype (B := numpy_backend) None
       (Some (VList [VNum (PyBool true); VTuple [VNum (PyBool false)]]))
       (Some true) (mkGlobals ["int64"%string] [] [] []) =
       (Ok (DNative "bool"), mkGlobals ["int64"%string] [] [] [])
  /\ default_dtype (B := numpy_backend) None (Some (VList [])) None
       (mkGlobals ["int64"%string] [] [] []) =
       (Ok (DStr "int64"), mkGlobals ["int64"%string] [] [] []).
Proof.
  split; [|split].
  - apply (default_dtype_bool_item (B := numpy_backend)
             (VNum (PyBool true)) None initial_globals); reflexivity.
  - apply (default_dtype_bool_item (B := numpy_backend)
             (VList [VNum (PyBool true); VTuple [VNum (PyBool false)]])
             (Some true) (mkGlobals ["int64"%string] [] [] []));
      reflexivity.
  - rewrite (proj2 (default_dtype_bool_item (B := numpy_backend)
               (VList []) None (mkGlobals ["int64"%string] [] [] []))
               eq_refl).
    reflexivity.
Defined.

(** ** The queries leave the globals alone *)

Section Queries.

Context {B : Backend}.

Lemma snd_bind {A C : Type} (c : M A) (k : A -> M C) :
  (forall g, snd (c g) = g) ->
  (forall a g, snd (k a g) = g) ->
  forall g, snd (bind c k g) = g.
Proof.
  intros Hc Hk g. unfold bind. specialize (Hc g).
  destruct (c g) as [[a|e] g1]; simpl in Hc; subst g1; [apply Hk | reflexivity].
Qed.

Lemma snd_get_bind {C : Type} (k : Globals -> M C) :
  (forall a g, snd (k a g) = g) -> forall g, snd (bind get k g) = g.
Proof. intros Hk g. apply Hk. Qed.

Lemma snd_finish (r : PyDtype) (a : bool) (g : Globals) :
  snd (finish r a g) = g.
Proof. now destruct a. Qed.

Lemma snd_explicit_dtype (d : PyDtype) (a : option bool) (g : Globals) :
  snd (explicit_dtype d a g) = g.
Proof. now destruct a as [[|]|]. Qed.

Lemma snd_ambient_or (is_cat : PyVal -> Result bool) (fallback : string)
    (g : Globals) :
  snd (ambient_or is_cat fallback g) = g.
Proof.
  revert g. unfold ambient_or. apply snd_bind.
  - intros g. apply default_dtype_of_stacks_globals.
  - intros d. apply snd_bind; [reflexivity|].
    intros [|] g; reflexivity.
Qed.

Lemma snd_default_int_dtype (x : option PyVal) (d : option PyDtype)
    (a : option bool) (g : Globals) :
  snd (default_int_dtype x d a g) = g.
Proof.
  unfold default_int_dtype. destruct d as [d|]; [apply snd_explicit_dtype|].
  revert g. apply snd_bind; [|intros r g; apply snd_finish].
  destruct x as [[v|l|l|l|dt|name|dd]|]; try reflexivity;
    try (apply snd_bind; [reflexivity|]; intros big;
         destruct (truthy big); [reflexivity|];
         apply snd_bind; [reflexivity|]; intros mid;
         destruct (truthy mid); [reflexivity|];
         intros g; apply snd_ambient_or).
  - intros g.
    destruct (num_gt v (PyInt 9223372036854775807) && num_ne v ivy_inf
              && negb (String.eqb backend "torch")); [reflexivity|].
    destruct (num_gt v (PyInt 2147483647) && num_ne v ivy_inf);
      [reflexivity | apply snd_ambient_or].
  - apply snd_get_bind. intros g0 g.
    destruct (default_int_dtype_stack g0); [apply snd_ambient_or | reflexivity].
Qed.

Lemma snd_default_float_dtype (x : option PyVal) (d : option PyDtype)
    (a : option bool) (g : Globals) :
  snd (default_float_dtype x d a g) = g.
Proof.
  unfold default_float_dtype. destruct d as [d|]; [apply snd_explicit_dtype|].
  revert g. apply snd_bind; [|intros r g; apply snd_finish].
  destruct x as [[v|l|l|l|dt|name|dd]|]; try reflexivity;
    try (apply snd_bind; [reflexivity|]; intros wide;
         destruct wide; [reflexivity|];
         intros g; apply snd_ambient_or);
    try (apply snd_bind; [reflexivity|]; intros wide;
         destruct (truthy wide); [reflexivity|];
         intros g; apply snd_ambient_or).
  apply snd_get_bind. intros g0 g.
  destruct (default_float_dtype_stack g0); [apply snd_ambient_or | reflexivity].
Qed.

Lemma snd_default_dtype (d : option PyDtype) (x : option PyVal)
    (a : option bool) (g : Globals) :
  snd (default_dtype d x a g) = g.
Proof.
  unfold default_dtype. destruct d as [d|]; [apply snd_explicit_dtype|].
  destruct x as [it|]; [|apply default_dtype_of_stacks_globals].
  destruct (is_empty_container it); [apply default_dtype_of_stacks_globals|].
  revert g. apply snd_bind; [reflexivity|].
  intros [|] g; [apply snd_default_float_dtype|].
  revert g. apply snd_bind; [reflexivity|].
  intros [|] g; [apply snd_default_int_dtype|].
  now destruct (ivy_default a false).
Qed.

End Queries.

(** X1: whatever the arguments, and whether they return or raise,
    [default_dtype], [default_int_dtype] and [default_float_dtype] leave
    the three stacks (and the import log) exactly as they found them. *)
Theorem default_queries_keep_globals {B : Backend} (d : option PyDtype)
    (x : option PyVal) (as_native : option bool) (g : Globals) :
  snd (default_dtype d x as_native g) = g
  /\ snd (default_int_dtype x d as_native g) = g
  /\ snd (default_float_dtype x d as_native g) = g.
Proof.
  split; [apply snd_default_dtype|].
  split; [apply snd_default_int_dtype | apply snd_default_float_dtype].
Qed.

(** ** Setting, reading and unsetting the defaults *)

Section SetAndRead.

Context {B : Backend}.

Lemma truthy_snoc {A : Type} (l : list A) (a : A) : truthy (l ++ [a]) = true.
Proof. now destruct l. Qed.

Lemma top_snoc (l : list string) (s : string) : top (l ++ [s]) = s.
Proof. apply last_last. Qed.

Lemma stack_case_snoc {C : Type} (l : list string) (s : string) (x y : C) :
  match l ++ [s] with
  | [] => x
  | _ :: _ => y
  end = y.
Proof. now destruct l. Qed.

Lemma set_default_int_dtype_known (d : PyDtype) (s : string) (g : Globals) :
  as_ivy_dtype d = Ok s ->
  set_default_int_dtype d g =
    (Ok tt, set_int_dtype_stack (default_int_dtype_stack g ++ [s]) g).
Proof.
  intros H. unfold set_default_int_dtype, bind, lift, get, put. now rewrite H.
Qed.

Lemma set_default_float_dtype_known (d : PyDtype) (s : string) (g : Globals) :
  as_ivy_dtype d = Ok s ->
  set_default_float_dtype d g =
    (Ok tt, set_float_dtype_stack (default_float_dtype_stack g ++ [s]) g).
Proof.
  intros H. unfold set_default_float_dtype, bind, lift, get, put.
  now rewrite H.
Qed.

End SetAndRead.

(** Setting a default and reading it back, on each of the three stacks. *)
Lemma set_then_default_eq {B : Backend} (d : PyDtype) (s : string)
    (g : Globals) :
  as_ivy_dtype d = Ok s ->
  (set_default_dtype d ;;; default_dtype None None None) g =
    (Ok (DStr s), set_dtype_stack (default_dtype_stack g ++ [s]) g)
  /\ (set_default_int_dtype d ;;; default_int_dtype None None None) g =
       (Ok (DStr s), set_int_dtype_stack (default_int_dtype_stack g ++ [s]) g)
  /\ (set_default_float_dtype d ;;; default_float_dtype None None None) g =
       (Ok (DStr s),
        set_float_dtype_stack (default_float_dtype_stack g ++ [s]) g).
Proof.
  intros H. pose proof (as_ivy_dtype_idem d s H) as Hs.
  split; [|split]; unfold bind at 1.
  - rewrite (set_default_dtype_known d s g H).
    unfold default_dtype, default_dtype_of_stacks, bind, get.
    cbn [ivy_default set_dtype_stack default_dtype_stack].
    rewrite stack_case_snoc, top_snoc. now apply finish_canonical.
  - rewrite (set_default_int_dtype_known d s g H).
    unfold default_int_dtype, bind, get.
    cbn [ivy_default set_int_dtype_stack default_int_dtype_stack].
    rewrite stack_case_snoc, top_snoc. unfold ret.
    now apply finish_canonical.
  - rewrite (set_default_float_dtype_known d s g H).
    unfold default_float_dtype, bind, get.
    cbn [ivy_default set_float_dtype_stack default_float_dtype_stack].
    rewrite stack_case_snoc, top_snoc. unfold ret.
    now apply finish_canonical.
Qed.

(** X2: once [set_default_dtype(d)] has gone through, with [s] the
    canonical name of [d], [default_dtype()] returns [s], whatever the
    stacks held before; likewise [default_int_dtype()] after
    [set_default_int_dtype(d)] and [default_float_dtype()] after
    [set_default_float_dtype(d)].  The new entry sits on top of the old
    ones. *)
Theorem set_then_default {B : Backend} (d : PyDtype) (s : string)
    (g : Globals) :
  as_ivy_dtype d = Ok s ->
  (set_default_dtype d ;;; default_dtype None None None) g =
    (Ok (DStr s), set_dtype_stack (default_dtype_stack g ++ [s]) g)
  /\ (set_default_int_dtype d ;;; default_int_dtype None None None) g =
       (Ok (DStr s), set_int_dtype_stack (default_int_dtype_stack g ++ [s]) g)
  /\ (set_default_float_dtype d ;;; default_float_dtype None None None) g =
       (Ok (DStr s),
        set_float_dtype_stack (default_float_dtype_stack g ++ [s]) g).
Proof. exact (set_then_default_eq d s g). Qed.

(** An instance: a native handle set on stacks that hold other entries. *)
Lemma set_then_default_witness :
  let g := mkGlobals ["int32"%string] ["float16"%string] [] [] in
  (set_default_dtype (B := numpy_backend) (DNative "float64")
     ;;; default_dtype (B := numpy_backend) None None None) g =
    (Ok (DStr "float64"),
     mkGlobals ["int32"; "float64"]%string ["float16"%string] [] [])
  /\ (set_default_int_dtype (B := numpy_backend) (DNative "float64")
        ;;; default_int_dtype (B := numpy_backend) None None None) g =
       (Ok (DStr "float64"),
        mkGlobals ["int32"%string] ["float16"%string] ["float64"%string] [])
  /\ (set_default_float_dtype (B := numpy_backend) (DNative "float64")
        ;;; default_float_dtype (B := numpy_backend) None None None) g =
       (Ok (DStr "float64"),
        mkGlobals ["int32"%string] ["float16"; "float64"]%string [] []).
Proof.
  apply (set_then_default (B := numpy_backend) (DNative "float64") "float64"
           (mkGlobals ["int32"%string] ["float16"%string] [] [])).
  reflexivity.
Defined.

Section Unsets.

Context {B : Backend}.

Lemma set_dtype_stack_same (g : Globals) :
  set_dtype_stack (default_dtype_stack g) g = g.
Proof. now destruct g. Qed.

Lemma firstn_removelast (k : nat) (l : list string) :
  firstn (List.length (removelast l) - k) (removelast l) =
  firstn (List.length l - S k) l.
Proof.
  rewrite removelast_firstn_len, firstn_firstn, length_firstn.
  f_equal. lia.
Qed.

Lemma unset_default_dtype_step (g : Globals) :
  unset_default_dtype g =
    (Ok tt, set_dtype_stack (removelast (default_dtype_stack g)) g).
Proof.
  unfold unset_default_dtype, bind, get, put.
  destruct (default_dtype_stack g) eqn:E; cbn [truthy]; [|reflexivity].
  unfold ret. cbn [removelast]. rewrite <- E. now rewrite set_dtype_stack_same.
Qed.

Lemma unset_default_int_dtype_step (g : Globals) :
  unset_default_int_dtype g =
    (Ok tt, set_int_dtype_stack (removelast (default_int_dtype_stack g)) g).
Proof.
  unfold unset_default_int_dtype, bind, get, put.
  destruct (default_int_dtype_stack g) eqn:E; cbn [truthy]; [|reflexivity].
  unfold ret. cbn [removelast]. rewrite <- E. now destruct g.
Qed.

Lemma unset_default_float_dtype_step (g : Globals) :
  unset_default_float_dtype g =
    (Ok tt, set_float_dtype_stack (removelast (default_float_dtype_stack g)) g).
Proof.
  unfold unset_default_float_dtype, bind, get, put.
  destruct (default_float_dtype_stack g) eqn:E; cbn [truthy]; [|reflexivity].
  unfold ret. cbn [removelast]. rewrite <- E. now destruct g.
Qed.

End Unsets.

(** X3: [k] calls of [unset_default_dtype] in a row never raise and remove
    the last [k] entries of the stack, all of them when it holds fewer;
    the same holds of [unset_default_int_dtype] and
    [unset_default_float_dtype] on their stacks.  The other stacks are not
    touched. *)
Theorem unsets_drop_last {B : Backend} (k : nat) (g : Globals) :
  run (repeat CUnset k) g =
    (Ok tt,
     set_dtype_stack
       (firstn (List.length (default_dtype_stack g) - k) (default_dtype_stack g)) g)
  /\ run_on call_int (repeat CUnset k) g =
       (Ok tt,
        set_int_dtype_stack
          (firstn (List.length (default_int_dtype_stack g) - k)
             (default_int_dtype_stack g)) g)
  /\ run_on call_float (repeat CUnset k) g =
       (Ok tt,
        set_float_dtype_stack
          (firstn (List.length (default_float_dtype_stack g) - k)
             (default_float_dtype_stack g)) g).
Proof.
  revert g. induction k as [|k IH]; intros g.
  - cbn [repeat run run_on]. unfold ret. rewrite !Nat.sub_0_r, !firstn_all.
    now destruct g.
  - cbn [repeat run run_on call call_int call_float].
    split; [|split]; unfold bind at 1.
    + rewrite unset_default_dtype_step.
      rewrite (proj1 (IH _)). cbn [default_dtype_stack set_dtype_stack].
      now rewrite firstn_removelast.
    + rewrite unset_default_int_dtype_step.
      rewrite (proj1 (proj2 (IH _))).
      cbn [default_int_dtype_stack set_int_dtype_stack default_dtype_stack
           default_float_dtype_stack imported].
      now rewrite firstn_removelast.
    + rewrite unset_default_float_dtype_step.
      rewrite (proj2 (proj2 (IH _))).
      cbn [default_float_dtype_stack set_float_dtype_stack default_dtype_stack
           default_int_dtype_stack imported].
      now rewrite firstn_removelast.
Qed.

(** ** Who reads the int stack *)

Section IntStackFrame.

Context {B : Backend}.

Variable si : list string.

Lemma fst_bind_frame {A C : Type} (c : M A) (k : A -> M C) :
  (forall g, snd (c g) = g) ->
  (forall g, fst (c (set_int_dtype_stack si g)) = fst (c g)) ->
  (forall a g, fst (k a (set_int_dtype_stack si g)) = fst (k a g)) ->
  forall g, fst (bind c k (set_int_dtype_stack si g)) = fst (bind c k g).
Proof.
  intros Hs Hf Hk g. unfold bind.
  pose proof (Hs g) as H1. pose proof (Hs (set_int_dtype_stack si g)) as H2.
  specialize (Hf g).
  destruct (c g) as [r1 g1]. destruct (c (set_int_dtype_stack si g)) as [r2 g2].
  simpl in *. subst. destruct r1; [apply Hk | reflexivity].
Qed.

Lemma frame_default_dtype_of_stacks (a : bool) (g : Globals) :
  fst (default_dtype_of_stacks a (set_int_dtype_stack si g)) =
  fst (default_dtype_of_stacks a g).
Proof.
  destruct g. unfold default_dtype_of_stacks, bind, get, finish, lift.
  cbn. now destruct a.
Qed.

Lemma frame_finish (r : PyDtype) (a : bool) (g : Globals) :
  fst (finish r a (set_int_dtype_stack si g)) = fst (finish r a g).
Proof. now destruct a. Qed.

Lemma frame_explicit_dtype (d : PyDtype) (a : option bool) (g : Globals) :
  fst (explicit_dtype d a (set_int_dtype_stack si g)) =
  fst (explicit_dtype d a g).
Proof. now destruct a as [[|]|]. Qed.

Lemma frame_ambient_or (is_cat : PyVal -> Result bool) (fallback : string)
    (g : Globals) :
  fst (ambient_or is_cat fallback (set_int_dtype_stack si g)) =
  fst (ambient_or is_cat fallback g).
Proof.
  revert g. unfold ambient_or. apply fst_bind_frame.
  - intros g. apply default_dtype_of_stacks_globals.
  - apply frame_default_dtype_of_stacks.
  - intros d. apply fst_bind_frame; try reflexivity.
    intros [|] g; reflexivity.
Qed.

Lemma frame_default_float_dtype (x : option PyVal) (d : option PyDtype)
    (a : option bool) (g : Globals) :
  fst (default_float_dtype x d a (set_int_dtype_stack si g)) =
  fst (default_float_dtype x d a g).
Proof.
  unfold default_float_dtype. destruct d as [d|]; [apply frame_explicit_dtype|].
  revert g. apply fst_bind_frame; [| |intros r g; apply frame_finish].
  - intros g. destruct x as [[v|l|l|l|dt|name|dd]|]; try reflexivity;
      try (revert g; apply snd_bind; [reflexivity|]; intros wide g;
           (destruct wide; [reflexivity | apply snd_ambient_or]));
      try (revert g; apply snd_bind; [reflexivity|]; intros wide g;
           (destruct (truthy wide); [reflexivity | apply snd_ambient_or])).
    unfold bind, get. destruct (default_float_dtype_stack g);
      [apply snd_ambient_or | reflexivity].
  - intros g. destruct x as [[v|l|l|l|dt|name|dd]|]; try reflexivity;
      try (revert g; apply fst_bind_frame; try reflexivity; intros wide g;
           (destruct wide; [reflexivity | apply frame_ambient_or]));
      try (revert g; apply fst_bind_frame; try reflexivity; intros wide g;
           (destruct (truthy wide); [reflexivity | apply frame_ambient_or])).
    destruct g as [sd sf si0 im]. unfold bind, get. cbn.
    destruct sf; [apply (frame_ambient_or _ _ (mkGlobals sd [] si0 im))
                 | reflexivity].
Qed.

Lemma frame_default_int_dtype (x : PyVal) (a : option bool) (g : Globals) :
  fst (default_int_dtype (Some x) None a (set_int_dtype_stack si g)) =
  fst (default_int_dtype (Some x) None a g).
Proof.
  unfold default_int_dtype.
  revert g. apply fst_bind_frame; [| |intros r g; apply frame_finish].
  - intros g. destruct x as [v|l|l|l|dt|name|dd]; try reflexivity;
      try (revert g; apply snd_bind; [reflexivity|]; intros big g;
           destruct (truthy big); [reflexivity|];
           revert g; apply snd_bind; [reflexivity|]; intros mid g;
           destruct (truthy mid); [reflexivity | apply snd_ambient_or]).
    destruct (num_gt v (PyInt 9223372036854775807) && num_ne v ivy_inf
              && negb (String.eqb backend "torch")); [reflexivity|].
    destruct (num_gt v (PyInt 2147483647) && num_ne v ivy_inf);
      [reflexivity | apply snd_ambient_or].
  - intros g. destruct x as [v|l|l|l|dt|name|dd]; try reflexivity;
      try (revert g; apply fst_bind_frame; try reflexivity; intros big g;
           destruct (truthy big); [reflexivity|];
           revert g; apply fst_bind_frame; try reflexivity; intros mid g;
           destruct (truthy mid); [reflexivity | apply frame_ambient_or]).
    destruct (num_gt v (PyInt 9223372036854775807) && num_ne v ivy_inf
              && negb (String.eqb backend "torch")); [reflexivity|].
    destruct (num_gt v (PyInt 2147483647) && num_ne v ivy_inf);
      [reflexivity | apply frame_ambient_or].
Qed.

Lemma frame_default_dtype (d : option PyDtype) (x : option PyVal)
    (a : option bool) (g : Globals) :
  fst (default_dtype d x a (set_int_dtype_stack si g)) =
  fst (default_dtype d x a g).
Proof.
  unfold default_dtype. destruct d as [d|]; [apply frame_explicit_dtype|].
  destruct x as [it|]; [|apply frame_default_dtype_of_stacks].
  destruct (is_empty_container it); [apply frame_default_dtype_of_stacks|].
  revert g. apply fst_bind_frame; try reflexivity.
  intros [|] g; [apply frame_default_float_dtype|].
  revert g. apply fst_bind_frame; try reflexivity.
  intros [|] g; [apply frame_default_int_dtype|].
  now destruct (ivy_default a false).
Qed.

End IntStackFrame.

Section IntStackCalls.

Context {B : Backend}.

Lemma set_int_dtype_stack_twice (a b : list string) (g : Globals) :
  set_int_dtype_stack a (set_int_dtype_stack b g) = set_int_dtype_stack a g.
Proof. reflexivity. Qed.

(** Calls on the int stack change nothing but the int stack, also when
    one of them raises. *)
Lemma run_on_call_int_shape (cs : list Call) (g : Globals) :
  exists si, snd (run_on call_int cs g) = set_int_dtype_stack si g.
Proof.
  revert g. induction cs as [|c cs IH]; intros g.
  - exists (default_int_dtype_stack g). now destruct g.
  - cbn [run_on]. unfold bind.
    assert (Hc : exists si, snd (call_int c g) = set_int_dtype_stack si g).
    { destruct c as [d|]; cbn [call_int].
      - unfold set_default_int_dtype, bind, lift, get, put.
        destruct (as_ivy_dtype d); cbn.
        + eexists; reflexivity.
        + exists (default_int_dtype_stack g). now destruct g.
      - rewrite unset_default_int_dtype_step. eexists; reflexivity. }
    destruct Hc as [s1 H1]. destruct (call_int c g) as [[u|e] g1];
      simpl in H1; subst g1.
    + destruct (IH (set_int_dtype_stack s1 g)) as [s2 H2].
      exists s2. now rewrite H2.
    + now exists s1.
Qed.

End IntStackCalls.

(** X5: the int stack is read only by [default_int_dtype()] called with
    neither an input nor an explicit dtype.  After any sequence of
    [set_default_int_dtype]/[unset_default_int_dtype] calls, balanced or
    not, raising or not, [default_dtype] and [default_float_dtype] return
    what they returned before for all arguments, and so does
    [default_int_dtype] when given an input. *)
Theorem int_stack_calls_frame {B : Backend} (cs : list Call)
    (d : option PyDtype) (x : option PyVal) (y : PyVal)
    (as_native : option bool) (g : Globals) :
  let g' := snd (run_on call_int cs g) in
  default_dtype_stack g' = default_dtype_stack g
  /\ default_float_dtype_stack g' = default_float_dtype_stack g
  /\ fst (default_dtype d x as_native g') = fst (default_dtype d x as_native g)
  /\ fst (default_float_dtype x d as_native g') =
       fst (default_float_dtype x d as_native g)
  /\ fst (default_int_dtype (Some y) None as_native g') =
       fst (default_int_dtype (Some y) None as_native g).
Proof.
  intros g'. destruct (run_on_call_int_shape cs g) as [si H].
  subst g'. rewrite H. repeat split.
  - apply frame_default_dtype.
  - apply frame_default_float_dtype.
  - apply frame_default_int_dtype.
Qed.

(** ** Discipline of the int and float stacks *)

Section OtherStacksDiscipline.

Context {B : Backend}.

Lemma run_on_app (step : Call -> M unit) (a b : list Call) (g : Globals) :
  run_on step (a ++ b) g =
    match run_on step a g with
    | (Ok _, g') => run_on step b g'
    | (Raise e, g') => (Raise e, g')
    end.
Proof.
  revert g. induction a as [|c a IH]; intros g; [reflexivity|].
  cbn [app run_on]. unfold bind.
  destruct (step c g) as [[u|e] g1]; [apply IH | reflexivity].
Qed.

Lemma unset_int_after_set (s : string) (g : Globals) :
  unset_default_int_dtype
    (set_int_dtype_stack (default_int_dtype_stack g ++ [s]) g) = (Ok tt, g).
Proof.
  rewrite unset_default_int_dtype_step.
  cbn [default_int_dtype_stack set_int_dtype_stack].
  rewrite removelast_last. now destruct g.
Qed.

Lemma unset_float_after_set (s : string) (g : Globals) :
  unset_default_float_dtype
    (set_float_dtype_stack (default_float_dtype_stack g ++ [s]) g) = (Ok tt, g).
Proof.
  rewrite unset_default_float_dtype_step.
  cbn [default_float_dtype_stack set_float_dtype_stack].
  rewrite removelast_last. now destruct g.
Qed.

Lemma run_on_matched (step : Call -> M unit) (cs : list Call) :
  (forall d s g, as_ivy_dtype d = Ok s ->
     exists g1, step (CSet d) g = (Ok tt, g1) /\ step CUnset g1 = (Ok tt, g)
                /\ forall w, (forall h, run_on step w h = (Ok tt, h)) ->
                     run_on step w g1 = (Ok tt, g1)) ->
  matched cs -> Forall known cs -> forall g, run_on step cs g = (Ok tt, g).
Proof.
  intros Hstep. induction 1 as [|d inner rest Hi IHi Hr IHr]; intros Hk g.
  - reflexivity.
  - inversion Hk as [|c l Hd Hk']; subst. destruct Hd as [s Hs].
    apply Forall_app in Hk'. destruct Hk' as [Hki Hkr].
    inversion Hkr as [|c l _ Hkr']; subst.
    destruct (Hstep d s g Hs) as [g1 [Hset [Hunset _]]].
    cbn [run_on]. unfold bind at 1. rewrite Hset.
    rewrite run_on_app, (IHi Hki).
    cbn [run_on]. unfold bind at 1. rewrite Hunset. now apply IHr.
Qed.

End OtherStacksDiscipline.

(** X4: a sequence of [set_default_int_dtype]/[unset_default_int_dtype]
    calls in which every set is closed by a later unset, the dtypes set
    being known to the backend, raises nothing and leaves the globals as
    they were; the same holds of
    [set_default_float_dtype]/[unset_default_float_dtype]. *)
Theorem int_float_stack_discipline {B : Backend} (cs : list Call)
    (g : Globals) :
  matched cs ->
  Forall known cs ->
  run_on call_int cs g = (Ok tt, g) /\ run_on call_float cs g = (Ok tt, g).
Proof.
  intros Hm Hk. split; apply run_on_matched; try assumption.
  - intros d s h Hs.
    exists (set_int_dtype_stack (default_int_dtype_stack h ++ [s]) h).
    split; [now apply set_default_int_dtype_known|].
    split; [apply unset_int_after_set | intros w Hw; apply Hw].
  - intros d s h Hs.
    exists (set_float_dtype_stack (default_float_dtype_stack h ++ [s]) h).
    split; [now apply set_default_float_dtype_known|].
    split; [apply unset_float_after_set | intros w Hw; apply Hw].
Qed.

Lemma int_float_stack_discipline_witness :
  let cs := [CSet (DStr "int8"); CSet (DNative "int16"); CUnset; CUnset] in
  let g := mkGlobals [] ["float64"%string] ["int64"%string] [] in
  run_on (call_int (B := numpy_backend)) cs g = (Ok tt, g)
  /\ run_on (call_float (B := numpy_backend)) cs g = (Ok tt, g).
Proof.
  apply (int_float_stack_discipline (B := numpy_backend)).
  - apply (matched_pair (DStr "int8") [CSet (DNative "int16"); CUnset] []).
    + apply (matched_pair (DNative "int16") [] []); constructor.
    + constructor.
  - repeat constructor; simpl; eexists; reflexivity.
Defined.

(** ** The general default and the float default *)

(** X6: while the general stack is empty, [default_float_dtype()] and
    [default_dtype()] are the same call: same result (or same exception),
    for every [as_native] and whatever the float and int stacks hold. *)
Theorem default_float_is_default_on_empty_stack {B : Backend}
    (as_native : option bool) (g : Globals) :
  default_dtype_stack g = [] ->
  default_float_dtype None None as_native g = default_dtype None None as_native g.
Proof.
  intros He. unfold default_float_dtype, default_dtype.
  set (a := ivy_default as_native false).
  assert (R : default_dtype_of_stacks a g =
              finish (DStr match default_float_dtype_stack g with
                           | [] => "float32"%string
                           | _ :: _ => top (default_float_dtype_stack g)
                           end) a g).
  { unfold default_dtype_of_stacks, bind, get. now rewrite He. }
  rewrite R. unfold bind at 1. unfold bind at 1. unfold get at 1.
  destruct (default_float_dtype_stack g) as [|x l] eqn:Ef.
  - assert (Hd : default_dtype_of_stacks false g = (Ok (DStr "float32"), g)).
    { unfold default_dtype_of_stacks, bind, get. rewrite He, Ef.
      apply finish_const. simpl. tauto. }
    rewrite (ambient_or_float g "float32" Hd). reflexivity.
  - reflexivity.
Qed.

Lemma default_float_is_default_on_empty_stack_witness :
  default_float_dtype (B := numpy_backend) None None (Some true)
    (mkGlobals [] ["float16"%string] ["int8"%string] []) =
  default_dtype (B := numpy_backend) None None (Some true)
    (mkGlobals [] ["float16"%string] ["int8"%string] []).
Proof.
  apply (default_float_is_default_on_empty_stack (B := numpy_backend)).
  reflexivity.
Defined.

(** ** The category of an inferred dtype *)

Section Category.

Context {B : Backend}.

Lemma bind_ok_inv {A C : Type} (c : M A) (k : A -> M C) (g g' : Globals)
    (b : C) :
  bind c k g = (Ok b, g') ->
  exists a g1, c g = (Ok a, g1) /\ k a g1 = (Ok b, g').
Proof.
  unfold bind. destruct (c g) as [[a|e] g1]; intros H; [|discriminate].
  now exists a, g1.
Qed.

(** A canonical name with the category word in it. *)
Lemma ambient_or_inv (word fallback : string) (is_cat : PyVal -> Result bool)
    (g g' : Globals) (r : PyDtype) :
  (forall s0, as_ivy_dtype (DStr s0) = Ok s0 ->
     is_cat (VDtype (DStr s0)) = Ok (PyStr.contains word s0)) ->
  In fallback ivy_dtypes ->
  PyStr.contains word fallback = true ->
  ambient_or is_cat fallback g = (Ok r, g') ->
  exists n, r = DStr n /\ as_ivy_dtype (DStr n) = Ok n
            /\ PyStr.contains word n = true.
Proof.
  intros Hcat Hin Hw H. unfold ambient_or in H.
  apply bind_ok_inv in H. destruct H as [d0 [g1 [Hd H]]].
  destruct (default_dtype_of_stacks_inv _ _ _ Hd) as [_ [s0 [-> Hs0]]].
  apply bind_ok_inv in H. destruct H as [keep [g2 [Hk H]]].
  unfold lift in Hk. rewrite (Hcat s0 Hs0) in Hk. inversion Hk; subst.
  destruct (PyStr.contains word s0) eqn:E; inversion H; subst.
  - now exists s0.
  - exists fallback. split; [reflexivity|]. split; [|exact Hw].
    now apply as_ivy_dtype_const.
Qed.

Lemma is_int_dtype_canonical (s0 : string) :
  as_ivy_dtype (DStr s0) = Ok s0 ->
  is_int_dtype (VDtype (DStr s0)) = Ok (PyStr.contains "int" s0).
Proof. intros H. cbn [is_int_dtype]. now rewrite H. Qed.

Lemma is_float_dtype_canonical (s0 : string) :
  as_ivy_dtype (DStr s0) = Ok s0 ->
  is_float_dtype (VDtype (DStr s0)) = Ok (PyStr.contains "float" s0).
Proof. intros H. cbn [is_float_dtype]. now rewrite H. Qed.

Lemma const_has_category (word n : string) :
  In n ivy_dtypes -> PyStr.contains word n = true ->
  exists m, DStr n = DStr m /\ as_ivy_dtype (DStr m) = Ok m
            /\ PyStr.contains word m = true.
Proof.
  intros Hin Hw. exists n. split; [reflexivity|]. split; [|exact Hw].
  now apply as_ivy_dtype_const.
Qed.

Lemma finish_category (word : string) (r : PyDtype) (s : string)
    (g g' : Globals) :
  (exists n, r = DStr n /\ as_ivy_dtype (DStr n) = Ok n
             /\ PyStr.contains word n = true) ->
  finish r false g = (Ok (DStr s), g') ->
  PyStr.contains word s = true.
Proof.
  intros [n [-> [Hn Hw]]] H. unfold finish, lift in H. rewrite Hn in H.
  cbn in H. now inversion H; subst.
Qed.

End Category.

Ltac category_branch :=
  match goal with
  | H : ambient_or is_int_dtype _ _ = _ |- _ =>
      apply (ambient_or_inv "int" "int32" is_int_dtype _ _ _
               is_int_dtype_canonical) in H;
      [exact H | simpl; tauto | reflexivity]
  | H : ambient_or is_float_dtype _ _ = _ |- _ =>
      apply (ambient_or_inv "float" "float32" is_float_dtype _ _ _
               is_float_dtype_canonical) in H;
      [exact H | simpl; tauto | reflexivity]
  | H : ret (DStr _) _ = (Ok _, _) |- _ =>
      inversion H; subst; apply const_has_category;
      [simpl; tauto | reflexivity]
  end.

(** X7: when [default_int_dtype] infers the dtype from a number or from a
    list, tuple or dict, or is called without input while the int stack
    is empty, the name it returns has "int" in it, whatever the general
    and float stacks hold; in the same way the name [default_float_dtype]
    returns has "float" in it.  ([as_native] unset or false.) *)
Theorem inferred_dtype_category {B : Backend} (x : option PyVal)
    (as_native : option bool) (g g' : Globals) (s : string) :
  as_native <> Some true ->
  match x with
  | None => True
  | Some (VNum _ | VList _ | VTuple _ | VDict _) => True
  | Some _ => False
  end ->
  ((x = None -> default_int_dtype_stack g = []) ->
   default_int_dtype x None as_native g = (Ok (DStr s), g') ->
   PyStr.contains "int" s = true)
  /\
  ((x = None -> default_float_dtype_stack g = []) ->
   default_float_dtype x None as_native g = (Ok (DStr s), g') ->
   PyStr.contains "float" s = true).
Proof.
  intros Hn Hx. split; intros He H.
  - unfold default_int_dtype in H. rewrite (ivy_default_not_native _ Hn) in H.
    apply bind_ok_inv in H. destruct H as [r [g1 [Hr Hf]]].
    apply (finish_category "int" r s g1 g'); [|exact Hf]. clear Hf.
    destruct x as [[v|l|l|l|dt|name|dd]|]; try contradiction.
    + destruct (num_gt v (PyInt 9223372036854775807) && num_ne v ivy_inf
                && negb (String.eqb backend "torch")); [category_branch|].
      destruct (num_gt v (PyInt 2147483647) && num_ne v ivy_inf);
        category_branch.
    + apply bind_ok_inv in Hr. destruct Hr as [big [g2 [_ Hr]]].
      destruct (truthy big); [category_branch|].
      apply bind_ok_inv in Hr. destruct Hr as [mid [g3 [_ Hr]]].
      destruct (truthy mid); category_branch.
    + apply bind_ok_inv in Hr. destruct Hr as [big [g2 [_ Hr]]].
      destruct (truthy big); [category_branch|].
      apply bind_ok_inv in Hr. destruct Hr as [mid [g3 [_ Hr]]].
      destruct (truthy mid); category_branch.
    + apply bind_ok_inv in Hr. destruct Hr as [big [g2 [_ Hr]]].
      destruct (truthy big); [category_branch|].
      apply bind_ok_inv in Hr. destruct Hr as [mid [g3 [_ Hr]]].
      destruct (truthy mid); category_branch.
    + unfold bind, get in Hr. rewrite (He eq_refl) in Hr. category_branch.
  - unfold default_float_dtype in H. rewrite (ivy_default_not_native _ Hn) in H.
    apply bind_ok_inv in H. destruct H as [r [g1 [Hr Hf]]].
    apply (finish_category "float" r s g1 g'); [|exact Hf]. clear Hf.
    destruct x as [[v|l|l|l|dt|name|dd]|]; try contradiction.
    + apply bind_ok_inv in Hr. destruct Hr as [wide [g2 [_ Hr]]].
      destruct wide; category_branch.
    + apply bind_ok_inv in Hr. destruct Hr as [wide [g2 [_ Hr]]].
      destruct (truthy wide); category_branch.
    + apply bind_ok_inv in Hr. destruct Hr as [wide [g2 [_ Hr]]].
      destruct (truthy wide); category_branch.
    + apply bind_ok_inv in Hr. destruct Hr as [wide [g2 [_ Hr]]].
      destruct (truthy wide); category_branch.
    + unfold bind, get in Hr. rewrite (He eq_refl) in Hr. category_branch.
Qed.

(** An instance: a list of numbers under a general default "float16",
    asked for an int dtype and for a float dtype. *)
Lemma inferred_dtype_category_witness :
  PyStr.contains "int" "int32" = true
  /\ PyStr.contains "float" "float16" = true.
Proof.
  pose (g := mkGlobals ["float16"%string] [] [] []).
  pose (x := Some (VList [VNum (PyInt 7); VNum (PyFloat (PyFloat.of_Z 3))])).
  split.
  - apply (proj1 (inferred_dtype_category (B := numpy_backend) x None g g
                    "int32" ltac:(discriminate) I));
      [discriminate | reflexivity].
  - apply (proj2 (inferred_dtype_category (B := numpy_backend) x None g g
                    "float16" ltac:(discriminate) I));
      [discriminate | reflexivity].
Defined.

(** ** The context managers *)

Section Managers.

Context {B : Backend}.

Lemma with_block_swallows {A : Type} (enter : M unit) (exit : M bool)
    (body : M A) (after : Globals -> Globals) (g g1 : Globals) :
  enter g = (Ok tt, g1) ->
  (forall h, exit h = (Ok true, after h)) ->
  with_block enter exit body g =
    (Ok (outcome (fst (body g1))), after (snd (body g1))).
Proof.
  intros He Hx. unfold with_block. rewrite He.
  destruct (body g1) as [[a|e] g2]; rewrite Hx; reflexivity.
Qed.

Lemma with_block_enter_raises {A : Type} (enter : M unit) (exit : M bool)
    (body : M A) (g g1 : Globals) (e : PyExc) :
  enter g = (Raise e, g1) -> with_block enter exit body g = (Raise e, g1).
Proof. intros He. unfold with_block. now rewrite He. Qed.

Lemma DefaultDtype_exit_step (h : Globals) :
  DefaultDtype_exit h =
    (Ok true, set_dtype_stack (removelast (default_dtype_stack h)) h).
Proof.
  unfold DefaultDtype_exit, bind. now rewrite unset_default_dtype_step.
Qed.

Lemma DefaultIntDtype_exit_step (h : Globals) :
  DefaultIntDtype_exit h =
    (Ok true, set_int_dtype_stack (removelast (default_int_dtype_stack h)) h).
Proof.
  unfold DefaultIntDtype_exit, bind. now rewrite unset_default_int_dtype_step.
Qed.

Lemma DefaultFloatDtype_exit_step (h : Globals) :
  DefaultFloatDtype_exit h =
    (Ok true,
     set_float_dtype_stack (removelast (default_float_dtype_stack h)) h).
Proof.
  unfold DefaultFloatDtype_exit, bind.
  now rewrite unset_default_float_dtype_step.
Qed.

End Managers.

(** The three managers around an arbitrary body. *)
Lemma with_Default_block {B : Backend} {A : Type}
    (d : PyDtype) (s : string) (body : M A) (g : Globals) :
  as_ivy_dtype d = Ok s ->
  let gd := set_dtype_stack (default_dtype_stack g ++ [s]) g in
  let gi := set_int_dtype_stack (default_int_dtype_stack g ++ [s]) g in
  let gf := set_float_dtype_stack (default_float_dtype_stack g ++ [s]) g in
  (fst (with_DefaultDtype d body g) = Ok (outcome (fst (body gd)))
   /\ (snd (body gd) = gd -> snd (with_DefaultDtype d body g) = g))
  /\ (fst (with_DefaultIntDtype d body g) = Ok (outcome (fst (body gi)))
      /\ (snd (body gi) = gi -> snd (with_DefaultIntDtype d body g) = g))
  /\ (fst (with_DefaultFloatDtype d body g) = Ok (outcome (fst (body gf)))
      /\ (snd (body gf) = gf -> snd (with_DefaultFloatDtype d body g) = g)).
Proof.
  intros H gd gi gf. split; [|split].
  - unfold with_DefaultDtype.
    rewrite (with_block_swallows _ _ body _ g gd
               (set_default_dtype_known d s g H) DefaultDtype_exit_step).
    split; [reflexivity|]. intros Hb. cbn [snd]. rewrite Hb. subst gd.
    cbn [default_dtype_stack set_dtype_stack]. rewrite removelast_last.
    now destruct g.
  - unfold with_DefaultIntDtype.
    rewrite (with_block_swallows _ _ body _ g gi
               (set_default_int_dtype_known d s g H) DefaultIntDtype_exit_step).
    split; [reflexivity|]. intros Hb. cbn [snd]. rewrite Hb. subst gi.
    cbn [default_int_dtype_stack set_int_dtype_stack]. rewrite removelast_last.
    now destruct g.
  - unfold with_DefaultFloatDtype.
    rewrite (with_block_swallows _ _ body _ g gf
               (set_default_float_dtype_known d s g H)
               DefaultFloatDtype_exit_step).
    split; [reflexivity|]. intros Hb. cbn [snd]. rewrite Hb. subst gf.
    cbn [default_float_dtype_stack set_float_dtype_stack].
    rewrite removelast_last. now destruct g.
Qed.

(** X8: a [with DefaultDtype(d):] block whose [d] the backend knows never
    lets an exception of its body out: [__exit__] pops the stack and
    returns [self], a true value, so the body's exception is swallowed.
    If the body leaves the globals as it found them, the block leaves
    them as they were before it.  The same holds of [DefaultIntDtype] and
    [DefaultFloatDtype]. *)
Theorem with_Default_swallows_and_restores {B : Backend} {A : Type}
    (d : PyDtype) (s : string) (body : M A) (g : Globals) :
  as_ivy_dtype d = Ok s ->
  let gd := set_dtype_stack (default_dtype_stack g ++ [s]) g in
  let gi := set_int_dtype_stack (default_int_dtype_stack g ++ [s]) g in
  let gf := set_float_dtype_stack (default_float_dtype_stack g ++ [s]) g in
  (fst (with_DefaultDtype d body g) = Ok (outcome (fst (body gd)))
   /\ (snd (body gd) = gd -> snd (with_DefaultDtype d body g) = g))
  /\ (fst (with_DefaultIntDtype d body g) = Ok (outcome (fst (body gi)))
      /\ (snd (body gi) = gi -> snd (with_DefaultIntDtype d body g) = g))
  /\ (fst (with_DefaultFloatDtype d body g) = Ok (outcome (fst (body gf)))
      /\ (snd (body gf) = gf -> snd (with_DefaultFloatDtype d body g) = g)).
Proof. exact (with_Default_block d s body g). Qed.

(** An instance: a body that raises, [int("x")] say, inside
    [with DefaultDtype("float64")]. *)
Lemma with_Default_swallows_and_restores_witness :
  fst (with_DefaultDtype (B := numpy_backend) (DStr "float64")
         (lift (PyStr.to_int "x")) initial_globals) = Ok None
  /\ snd (with_DefaultDtype (B := numpy_backend) (DStr "float64")
            (lift (PyStr.to_int "x")) initial_globals) = initial_globals.
Proof.
  destruct (with_Default_swallows_and_restores (B := numpy_backend)
              (DStr "float64") "float64" (lift (PyStr.to_int "x"))
              initial_globals eq_refl) as [[H1 H2] _].
  split; [exact H1 | apply H2; reflexivity].
Defined.

(** X9: inside [with DefaultDtype(d):] the call [default_dtype()] returns
    the canonical name of [d], and after the block the globals are what
    they were; likewise [default_int_dtype()] inside
    [with DefaultIntDtype(d):] and [default_float_dtype()] inside
    [with DefaultFloatDtype(d):].  A dtype the backend does not know makes
    [__enter__] raise, and the body is not run. *)
Theorem with_Default_scopes_the_default {B : Backend} (d : PyDtype)
    (g : Globals) :
  (forall s : string,
     as_ivy_dtype d = Ok s ->
     with_DefaultDtype d (default_dtype None None None) g =
       (Ok (Some (DStr s)), g)
     /\ with_DefaultIntDtype d (default_int_dtype None None None) g =
          (Ok (Some (DStr s)), g)
     /\ with_DefaultFloatDtype d (default_float_dtype None None None) g =
          (Ok (Some (DStr s)), g))
  /\ (forall (e : PyExc) (A : Type) (body : M A),
        as_ivy_dtype d = Raise e ->
        with_DefaultDtype d body g = (Raise e, g)
        /\ with_DefaultIntDtype d body g = (Raise e, g)
        /\ with_DefaultFloatDtype d body g = (Raise e, g)).
Proof.
  split.
  - intros s H.
    destruct (set_then_default_eq d s g H) as [Hd [Hi Hf]].
    unfold bind in Hd, Hi, Hf.
    rewrite (set_default_dtype_known d s g H) in Hd.
    rewrite (set_default_int_dtype_known d s g H) in Hi.
    rewrite (set_default_float_dtype_known d s g H) in Hf.
    destruct (with_Default_block d s
                (default_dtype None None None) g H) as [[A1 A2] _].
    destruct (with_Default_block d s
                (default_int_dtype None None None) g H) as [_ [[B1 B2] _]].
    destruct (with_Default_block d s
                (default_float_dtype None None None) g H) as [_ [_ [C1 C2]]].
    rewrite Hd in A1, A2. rewrite Hi in B1, B2. rewrite Hf in C1, C2.
    cbn [fst snd outcome] in *.
    repeat split; apply injective_projections; cbn [fst snd]; auto.
  - intros e A body H.
    unfold with_DefaultDtype, with_DefaultIntDtype, with_DefaultFloatDtype.
    repeat split; apply with_block_enter_raises;
      unfold set_default_dtype, set_default_int_dtype,
        set_default_float_dtype, bind, lift; now rewrite H.
Qed.

Lemma with_Default_scopes_the_default_witness :
  with_DefaultDtype (B := numpy_backend) (DNative "int8")
    (default_dtype (B := numpy_backend) None None None)
    (mkGlobals ["float64"%string] [] [] []) =
    (Ok (Some (DStr "int8")), mkGlobals ["float64"%string] [] [] [])
  /\ with_DefaultDtype (B := numpy_backend) (DNative "complex")
       (default_dtype (B := numpy_backend) None None None)
       (mkGlobals ["float64"%string] [] [] []) =
       (Raise KeyError, mkGlobals ["float64"%string] [] [] []).
Proof.
  split.
  - apply (proj1 (with_Default_scopes_the_default (B := numpy_backend)
                    (DNative "int8") (mkGlobals ["float64"%string] [] [] []))
             "int8"%string eq_refl).
  - apply (proj2 (with_Default_scopes_the_default (B := numpy_backend)
                    (DNative "complex")
                    (mkGlobals ["float64"%string] [] [] []))
             KeyError PyDtype
             (default_dtype (B := numpy_backend) None None None) eq_refl).
Defined.

(** ** Supported dtypes of a function *)

Lemma mem_true_in (x : string) (l : list string) :
  PyStr.mem x l = true <-> In x l.
Proof.
  rewrite mem_in_dec. destruct (in_dec string_dec x l); split; auto.
  discriminate.
Qed.

Lemma filter_out_absent (d : string) (l : list string) :
  ~ In d l -> filter (fun s => negb (String.eqb d s)) l = l.
Proof.
  induction l as [|x l IH]; intros H; [reflexivity|].
  cbn [filter]. destruct (String.eqb_spec d x) as [->|Hne].
  - elim H. now left.
  - cbn [negb]. f_equal. apply IH. intros Hin. apply H. now right.
Qed.

(** On a list without repeats, removing the first occurrence removes the
    element. *)
Lemma remove_first_filter (d : string) (l : list string) :
  NoDup l -> remove_first d l = filter (fun s => negb (String.eqb d s)) l.
Proof.
  induction 1 as [|x l Hx Hl IH]; [reflexivity|].
  cbn [remove_first filter]. destruct (String.eqb_spec d x) as [->|Hne].
  - cbn [negb]. now rewrite filter_out_absent.
  - cbn [negb]. now rewrite IH.
Qed.

Lemma remove_step_filter (d : string) (l : list string) :
  NoDup l ->
  (if PyStr.mem d l then remove_first d l else l) =
  filter (fun s => negb (String.eqb d s)) l.
Proof.
  intros H. destruct (PyStr.mem d l) eqn:E.
  - now apply remove_first_filter.
  - symmetry. apply filter_out_absent. intros Hin.
    apply mem_true_in in Hin. congruence.
Qed.

Lemma filter_twice (f h : string -> bool) (l : list string) :
  filter f (filter h l) = filter (fun s => h s && f s) l.
Proof.
  induction l as [|x l IH]; [reflexivity|].
  cbn [filter]. destruct (h x); cbn [andb filter]; now rewrite IH.
Qed.

Lemma remove_loop_filter (u l : list string) :
  NoDup l ->
  fold_left
    (fun valid d => if PyStr.mem d valid then remove_first d valid else valid)
    u l =
  filter (fun s => negb (PyStr.mem s u)) l.
Proof.
  revert l. induction u as [|d u IH]; intros l Hl.
  - cbn. induction l as [|x l IHl]; [reflexivity|].
    cbn. f_equal. apply IHl. now inversion Hl.
  - cbn [fold_left]. rewrite remove_step_filter by exact Hl.
    rewrite IH by now apply NoDup_filter.
    rewrite filter_twice. apply filter_ext. intros s.
    unfold PyStr.mem. cbn [existsb].
    rewrite (String.eqb_sym s d). now rewrite negb_orb.
Qed.

(** X10: when the backend's [valid_dtypes] has no repeated entry,
    [function_supported_dtypes(fn, backend)] hands to the native
    conversion the valid dtypes that are not among
    [function_unsupported_dtypes(fn, backend)], in the order of
    [valid_dtypes]; so a dtype is supported exactly when it is valid and
    neither declared unsupported by [fn] nor invalid for the backend. *)
Theorem function_supported_dtypes_filter {B : Backend} (Native : Type)
    (conv : list string -> Result Native) (fn : option (list string))
    (backend_name : string) :
  NoDup valid_dtypes ->
  function_supported_dtypes Native conv fn backend_name =
    conv (filter
            (fun s => negb (PyStr.mem s
                              (function_unsupported_dtypes fn backend_name)))
            valid_dtypes)
  /\ (forall s : string,
        In s (supported_list fn backend_name) <->
        In s valid_dtypes
        /\ ~ In s (match fn with
                   | Some unsupported => unsupported
                   | None => []
                   end)
        /\ ~ In s invalid_dtypes).
Proof.
  intros Hnd.
  assert (E : supported_list fn backend_name =
              filter (fun s => negb (PyStr.mem s
                        (function_unsupported_dtypes fn backend_name)))
                valid_dtypes).
  { unfold supported_list. now apply remove_loop_filter. }
  split.
  - unfold function_supported_dtypes. now rewrite E.
  - intros s. rewrite E, filter_In, negb_true_iff.
    assert (M : PyStr.mem s (function_unsupported_dtypes fn backend_name)
                = false <->
                ~ In s (function_unsupported_dtypes fn backend_name)).
    { rewrite <- mem_true_in.
      destruct (PyStr.mem s (function_unsupported_dtypes fn backend_name));
        split; congruence. }
    rewrite M. unfold function_unsupported_dtypes.
    destruct fn as [u|]; [rewrite in_app_iff|]; tauto.
Qed.

(** An instance: a function that declares "float16" unsupported, under the
    torch-like backend. *)
Lemma function_supported_dtypes_filter_witness :
  function_supported_dtypes (B := torch_backend) (list string)
    (fun l => Ok l) (Some ["float16"; "uint16"]%string) "torch" =
    Ok ["int8"; "int16"; "int32"; "int64"; "uint8"; "bfloat16"; "float32";
        "float64"; "bool"]%string.
Proof.
  apply (proj1 (function_supported_dtypes_filter (B := torch_backend)
                  (list string) (fun l => Ok l)
                  (Some ["float16"; "uint16"]%string) "torch"
                  ltac:(repeat constructor; simpl; intuition discriminate))).
Defined.

(** Without that hypothesis a repeated valid dtype outlives its removal. *)
Example supported_list_with_repeat :
  supported_list
    (B := {| backend := "numpy";
             as_ivy_dtype := example_as_ivy_dtype;
             as_native_dtype := example_as_native_dtype;
             valid_dtypes := ["int8"; "float16"; "int8"]%string;
             invalid_dtypes := [];
             backend_module := fun _ => None;
             as_ivy_dtype_idem := fun _ s _ => eq_refl (Ok s);
             as_ivy_dtype_const := fun s _ => eq_refl (Ok s) |})
    (Some ["int8"%string]) "numpy" = ["float16"; "int8"]%string.
Proof. reflexivity. Qed.

(** ** Arrays keep their dtype *)

(** X11: for an array of the active backend whose dtype [dt] is canonical,
    [default_dtype(item=array)] ignores the stacks: it returns [dt] when
    [dt] has "float" or "int" in its name, and "bool" for every other
    dtype name.  ([as_native] unset or false.) *)
Theorem default_dtype_of_native_array {B : Backend} (dt : string)
    (as_native : option bool) (g : Globals) :
  as_ivy_dtype (DStr dt) = Ok dt ->
  as_native <> Some true ->
  default_dtype None (Some (VNativeArray dt)) as_native g =
    (Ok (DStr (if PyStr.contains "float" dt || PyStr.contains "int" dt
               then dt else "bool")), g).
Proof.
  intros Hc Hn. unfold default_dtype.
  rewrite (ivy_default_not_native _ Hn). cbn [is_empty_container].
  unfold bind at 1. unfold lift at 1. cbn [is_float_dtype]. rewrite Hc.
  cbn [rbind]. destruct (PyStr.contains "float" dt) eqn:Ef.
  - cbn [orb]. unfold default_float_dtype. cbn [ivy_default].
    unfold bind, ret. now apply finish_canonical.
  - unfold bind at 1. unfold lift at 1. cbn [is_int_dtype]. rewrite Hc.
    cbn [rbind orb]. destruct (PyStr.contains "int" dt) eqn:Ei.
    + unfold default_int_dtype. cbn [ivy_default].
      unfold bind, ret. now apply finish_canonical.
    + reflexivity.
Qed.

Lemma default_dtype_of_native_array_witness :
  default_dtype (B := numpy_backend) None (Some (VNativeArray "uint8")) None
    (mkGlobals ["float64"%string] [] [] []) =
    (Ok (DStr "uint8"), mkGlobals ["float64"%string] [] [] [])
  /\ default_dtype (B := numpy_backend) None (Some (VNativeArray "complex64"))
       None (mkGlobals ["float64"%string] [] [] []) =
       (Ok (DStr "bool"), mkGlobals ["float64"%string] [] [] []).
Proof.
  split.
  - apply (default_dtype_of_native_array (B := numpy_backend) "uint8" None
             (mkGlobals ["float64"%string] [] [] []));
      [reflexivity | discriminate].
  - apply (default_dtype_of_native_array (B := numpy_backend) "complex64" None
             (mkGlobals ["float64"%string] [] [] []));
      [reflexivity | discriminate].
Defined.

(** ** Lists and tuples of numbers *)

Section FlatScan.

Context {B : Backend}.

(** On a list of numbers the scan finds a leaf exactly when one of the
    numbers satisfies the predicate. *)
Lemma scan_list_of_numbers (fn : PyVal -> Result bool) (p : PyNum -> bool)
    (index : list Key) (vs : list PyNum) :
  (forall v, fn (VNum v) = Ok (p v)) ->
  exists found,
    nested_indices_where (VList (map VNum vs)) fn index = Ok found
    /\ truthy found = existsb p vs.
Proof.
  intros Hfn. cbn [nested_indices_where]. generalize O.
  induction vs as [|v vs IH]; intros i.
  - now exists [].
  - cbn [map existsb nested_indices_where]. rewrite Hfn. cbn [rbind].
    destruct (p v); cbn [orb].
    + now eexists.
    + apply IH.
Qed.

Lemma scan_tuple_of_numbers (fn : PyVal -> Result bool) (p : PyNum -> bool)
    (index : list Key) (vs : list PyNum) :
  (forall v, fn (VNum v) = Ok (p v)) ->
  exists found,
    nested_indices_where (VTuple (map VNum vs)) fn index = Ok found
    /\ truthy found = existsb p vs.
Proof. apply scan_list_of_numbers. Qed.

End FlatScan.

(** X12: for a list or tuple of numbers, with [default_dtype()] returning
    [d0] and [as_native] unset or false, [default_int_dtype] returns
    "uint64" when some element other than infinity exceeds
    9223372036854775807 (under every backend, "torch" included), else
    "int64" when some element other than infinity exceeds 2147483647,
    else [d0] when its name has "int" in it, else "int32"; where the
    large element sits does not matter. *)
Theorem default_int_dtype_list_of_numbers {B : Backend} (vs : list PyNum)
    (as_native : option bool) (g : Globals) (d0 : string) :
  as_native <> Some true ->
  default_dtype None None None g = (Ok (DStr d0), g) ->
  let answer :=
    if existsb (fun v => num_gt v (PyInt 9223372036854775807)
                         && num_ne v ivy_inf) vs
    then "uint64"%string
    else if existsb (fun v => num_gt v (PyInt 2147483647)
                              && num_ne v ivy_inf) vs
    then "int64"%string
    else if PyStr.contains "int" d0 then d0 else "int32"%string in
  default_int_dtype (Some (VList (map VNum vs))) None as_native g =
    (Ok (DStr answer), g)
  /\ default_int_dtype (Some (VTuple (map VNum vs))) None as_native g =
       (Ok (DStr answer), g).
Proof.
  intros Hn Hd answer. rewrite default_dtype_no_args in Hd.
  assert (Hc : as_ivy_dtype (DStr d0) = Ok d0).
  { destruct (default_dtype_of_stacks_inv _ _ _ Hd) as [_ [s [Es Hs]]].
    now inversion Es; subst. }
  destruct (scan_list_of_numbers (exceeds 9223372036854775807)
              (fun v => num_gt v (PyInt 9223372036854775807)
                        && num_ne v ivy_inf) [] vs (fun v => eq_refl))
    as [big [Hbig Tbig]].
  destruct (scan_list_of_numbers (exceeds 2147483647)
              (fun v => num_gt v (PyInt 2147483647) && num_ne v ivy_inf)
              [] vs (fun v => eq_refl))
    as [mid [Hmid Tmid]].
  assert (Main : default_int_dtype (Some (VList (map VNum vs))) None
                   as_native g = (Ok (DStr answer), g)).
  { unfold default_int_dtype. rewrite (ivy_default_not_native _ Hn).
    unfold bind at 1. unfold bind at 1. unfold lift at 1.
    rewrite Hbig, Tbig. subst answer.
    destruct (existsb _ vs).
    - unfold ret. apply finish_const. simpl. tauto.
    - unfold bind at 1. unfold lift at 1. rewrite Hmid, Tmid.
      destruct (existsb _ vs).
      + unfold ret. apply finish_const. simpl. tauto.
      + rewrite (ambient_or_int g d0 Hd).
        apply finish_canonical. apply ambient_choice_canonical;
          [exact Hc | simpl; tauto]. }
  split; [exact Main | exact Main].
Qed.

Lemma default_int_dtype_list_of_numbers_witness :
  default_int_dtype (B := torch_backend)
    (Some (VList (map VNum [PyInt 1; PyInt 2; PyInt 9223372036854775808])))
    None None initial_globals = (Ok (DStr "uint64"), initial_globals)
  /\ default_int_dtype (B := torch_backend)
       (Some (VTuple (map VNum [PyInt 1; PyInt 2; PyInt 9223372036854775808])))
       None None initial_globals = (Ok (DStr "uint64"), initial_globals).
Proof.
  apply (default_int_dtype_list_of_numbers (B := torch_backend)
           [PyInt 1; PyInt 2; PyInt 9223372036854775808] None initial_globals
           "float32"); [discriminate | reflexivity].
Defined.

(** X13: under a backend whose name is not "torch", a one-element list
    and the bare number get the same answer from [default_int_dtype], for
    every number (infinity and NaN included), every [as_native] and all
    stacks: the two branches differ by the "torch" test alone. *)
Theorem default_int_dtype_singleton_is_scalar {B : Backend} (v : PyNum)
    (as_native : option bool) (g : Globals) :
  backend <> "torch"%string ->
  default_int_dtype (Some (VList [VNum v])) None as_native g =
  default_int_dtype (Some (VNum v)) None as_native g.
Proof.
  intros Ht. apply String.eqb_neq in Ht.
  unfold default_int_dtype. rewrite Ht. cbn [negb]. rewrite andb_true_r.
  unfold bind at 1 3. f_equal.
  unfold bind at 1. unfold lift at 1.
  cbn [nested_indices_where exceeds rbind].
  destruct (num_gt v (PyInt 9223372036854775807) && num_ne v ivy_inf);
    [reflexivity|].
  cbn [truthy]. unfold bind at 1. unfold lift at 1.
  cbn [nested_indices_where exceeds rbind].
  now destruct (num_gt v (PyInt 2147483647) && num_ne v ivy_inf).
Qed.

Lemma default_int_dtype_singleton_is_scalar_witness :
  default_int_dtype (B := numpy_backend)
    (Some (VList [VNum (PyInt 9223372036854775808)])) None None
    initial_globals =
  default_int_dtype (B := numpy_backend)
    (Some (VNum (PyInt 9223372036854775808))) None None initial_globals.
Proof.
  apply (default_int_dtype_singleton_is_scalar (B := numpy_backend)).
  discriminate.
Defined.

(** X14: for a non-empty list of numbers, [default_dtype(item=list)] asks
    [default_float_dtype] as soon as one element is a float, even among
    ints; failing that it asks [default_int_dtype] when one element is an
    int that is not a bool; and a list of bools alone gives "bool" (or its
    native dtype). *)
Theorem default_dtype_of_number_list {B : Backend} (vs : list PyNum)
    (as_native : option bool) (g : Globals) :
  vs <> [] ->
  let item := VList (map VNum vs) in
  let a := ivy_default as_native false in
  default_dtype None (Some item) as_native g =
    if existsb (fun v => match v with PyFloat _ => true | _ => false end) vs
    then default_float_dtype (Some item) None (Some a) g
    else if existsb (fun v => match v with PyInt _ => true | _ => false end) vs
    then default_int_dtype (Some item) None (Some a) g
    else (if a then as_native_dtype (DStr "bool") else Ok (DStr "bool"), g).
Proof.
  intros Hne item a.
  destruct (scan_list_of_numbers is_float_leaf
              (fun v => match v with PyFloat _ => true | _ => false end)
              [] vs (fun v => eq_refl)) as [ff [Hff Tff]].
  destruct (scan_list_of_numbers is_int_leaf
              (fun v => match v with PyInt _ => true | _ => false end)
              [] vs (fun v => eq_refl)) as [fi [Hfi Tfi]].
  unfold default_dtype. fold a.
  assert (He : is_empty_container item = false).
  { subst item. destruct vs; [now elim Hne | reflexivity]. }
  rewrite He. unfold bind at 1. unfold lift at 1.
  subst item. cbn [is_float_dtype]. rewrite Hff. cbn [rbind]. rewrite Tff.
  destruct (existsb _ vs); [reflexivity|].
  unfold bind at 1. unfold lift at 1.
  cbn [is_int_dtype]. rewrite Hfi. cbn [rbind]. rewrite Tfi.
  destruct (existsb _ vs); [reflexivity|].
  now destruct a.
Qed.

Lemma default_dtype_of_number_list_witness :
  default_dtype (B := numpy_backend) None
    (Some (VList (map VNum [PyInt 1; PyFloat (PyFloat.of_Z 2)]))) None
    (mkGlobals ["int64"%string] [] [] []) =
    (Ok (DStr "float32"), mkGlobals ["int64"%string] [] [] [])
  /\ default_dtype (B := numpy_backend) None
       (Some (VList (map VNum [PyBool true; PyInt 1]))) None
       (mkGlobals ["int64"%string] [] [] []) =
       (Ok (DStr "int64"), mkGlobals ["int64"%string] [] [] []).
Proof.
  split.
  - rewrite (default_dtype_of_number_list (B := numpy_backend)
               [PyInt 1; PyFloat (PyFloat.of_Z 2)] None
               (mkGlobals ["int64"%string] [] [] []) ltac:(discriminate)).
    reflexivity.
  - rewrite (default_dtype_of_number_list (B := numpy_backend)
               [PyBool true; PyInt 1] None
               (mkGlobals ["int64"%string] [] [] []) ltac:(discriminate)).
    reflexivity.
Defined.

(** ** [_check_float64] on ints *)


Lemma all_chars_app (ok : ascii -> bool) (a b : string) :
  all_chars ok (a ++ b) = all_chars ok a && all_chars ok b.
Proof.
  induction a as [|c a IH]; [reflexivity|].
  cbn. now rewrite IH, andb_assoc.
Qed.

Lemma all_chars_weaken (p q : ascii -> bool) (s : string) :
  (forall c, p c = true -> q c = true) ->
  all_chars p s = true -> all_chars q s = true.
Proof.
  intros H. induction s as [|c s IH]; [reflexivity|].
  cbn. intros Hs. apply andb_true_iff in Hs. destruct Hs as [Hc Hs].
  now rewrite (H c Hc), IH.
Qed.

Lemma string_length_app (a b : string) :
  String.length (a ++ b) = (String.length a + String.length b)%nat.
Proof. induction a as [|c a IH]; [reflexivity|]. cbn. now rewrite IH. Qed.

(** [replace] and [split] with a one-character pattern that does not
    occur in the string. *)
Lemma prefix_single (x c : ascii) (rest : string) :
  String.prefix (String x EmptyString) (String c rest) = Ascii.eqb x c.
Proof.
  cbn. destruct (ascii_dec x c) as [->|Hne].
  - destruct rest; now rewrite Ascii.eqb_refl.
  - symmetry. now apply Ascii.eqb_neq.
Qed.

Lemma replace_single_absent (x : ascii) (new s : string) :
  all_chars (fun c => negb (Ascii.eqb x c)) s = true ->
  PyStr.replace (String x EmptyString) new s = s.
Proof.
  unfold PyStr.replace. induction s as [|c s IH]; [reflexivity|].
  intros H. cbn [all_chars] in H. apply andb_true_iff in H.
  destruct H as [Hc Hs]. cbn [PyStr.replace_from].
  rewrite prefix_single. apply negb_true_iff in Hc. rewrite Hc.
  f_equal. apply IH. exact Hs.
Qed.

Lemma append_empty_r (s : string) : (s ++ "")%string = s.
Proof. induction s as [|c s IH]; [reflexivity|]. cbn. now f_equal. Qed.

Lemma append_snoc (a : string) (c : ascii) (b : string) :
  ((a ++ String c EmptyString) ++ b)%string = (a ++ String c b)%string.
Proof. induction a as [|x a IH]; [reflexivity|]. cbn. now f_equal. Qed.

Lemma split_single_absent (x : ascii) (cur s : string) :
  all_chars (fun c => negb (Ascii.eqb x c)) s = true ->
  PyStr.split_from O (String x EmptyString) cur s = [(cur ++ s)%string].
Proof.
  revert cur. induction s as [|c s IH]; intros cur H.
  - cbn. now rewrite append_empty_r.
  - cbn [all_chars] in H. apply andb_true_iff in H. destruct H as [Hc Hs].
    cbn [PyStr.split_from]. rewrite prefix_single.
    apply negb_true_iff in Hc. rewrite Hc. rewrite IH by exact Hs.
    now rewrite append_snoc.
Qed.

Lemma digits_of_uint (d : Decimal.uint) :
  all_chars is_digit (NilEmpty.string_of_uint d) = true.
Proof. induction d; cbn; auto. Qed.

Lemma digits_of_uint_nz (d : Decimal.uint) :
  all_chars is_digit (NilZero.string_of_uint d) = true.
Proof. destruct d; try apply (digits_of_uint (_ _)); reflexivity. Qed.

Lemma digit_not (x : ascii) :
  is_digit x = false ->
  forall c, is_digit c = true -> negb (Ascii.eqb x c) = true.
Proof.
  intros Hx c Hc. apply negb_true_iff. apply Ascii.eqb_neq. intros ->.
  congruence.
Qed.

Lemma of_int_nonneg_digits (n : Z) :
  0 <= n -> all_chars is_digit (PyStr.of_int n) = true.
Proof.
  intros H. unfold PyStr.of_int. destruct n as [|p|p]; try lia.
  - reflexivity.
  - apply digits_of_uint_nz.
Qed.

Lemma replace_minus_of_int (z : Z) :
  PyStr.replace "-" "" (PyStr.of_int z) = PyStr.of_int (Z.abs z).
Proof.
  destruct z as [|p|p].
  - reflexivity.
  - apply replace_single_absent.
    apply (all_chars_weaken is_digit); [apply digit_not; reflexivity|].
    apply (of_int_nonneg_digits (Zpos p)). lia.
  - unfold PyStr.of_int. cbn [Z.to_int Z.abs NilZero.string_of_int].
    unfold PyStr.replace. cbn [PyStr.replace_from].
    rewrite prefix_single. cbn [Ascii.eqb Bool.eqb String.length Nat.sub].
    cbn [append].
    apply (replace_single_absent "-" "").
    apply (all_chars_weaken is_digit); [apply digit_not; reflexivity|].
    apply digits_of_uint_nz.
Qed.

Lemma integer_part_str_int (z : Z) :
  integer_part_str (PyInt z) = PyStr.of_int (Z.abs z).
Proof.
  unfold integer_part_str. cbn [py_str]. rewrite replace_minus_of_int.
  unfold PyStr.split. rewrite split_single_absent; [reflexivity|].
  apply (all_chars_weaken is_digit); [apply digit_not; reflexivity|].
  apply of_int_nonneg_digits. lia.
Qed.

Lemma to_int_of_int (n : Z) : PyStr.to_int (PyStr.of_int n) = Ok n.
Proof.
  unfold PyStr.to_int, PyStr.of_int. rewrite NilZero.isi.
  - now rewrite DecimalZ.of_to.
  - destruct n; try discriminate. intros [= H].
    now apply (Unsigned.to_uint_nonnil p).
  - destruct n; try discriminate. intros [= H].
    now apply (Unsigned.to_uint_nonnil p).
Qed.

(** The binary digits of [bin]. *)
Lemma bits_are_bits (p : positive) : all_chars is_bit (PyStr.bits p) = true.
Proof.
  induction p as [p IH|p IH|]; cbn [PyStr.bits]; try reflexivity;
    now rewrite all_chars_app, IH.
Qed.

Lemma bits_length (p : positive) :
  String.length (PyStr.bits p) = Pos.size_nat p.
Proof.
  induction p as [p IH|p IH|]; cbn [PyStr.bits Pos.size_nat]; try reflexivity;
    rewrite string_length_app, IH; cbn; lia.
Qed.

Lemma size_nat_log2 (p : positive) :
  Z.of_nat (Pos.size_nat p) = Z.log2 (Zpos p) + 1.
Proof.
  assert (H : forall q, Z.of_nat (Pos.size_nat q) = Zpos (Pos.size q)).
  { induction q as [q IH|q IH|]; cbn [Pos.size_nat Pos.size]; try reflexivity;
      rewrite Nat2Z.inj_succ, IH; lia. }
  destruct p as [p|p|]; cbn [Z.log2 Pos.size_nat]; try reflexivity;
    rewrite Nat2Z.inj_succ, H; lia.
Qed.

Lemma prefix_cons (a c : ascii) (r s : string) :
  String.prefix (String a r) (String c s) = Ascii.eqb a c && String.prefix r s.
Proof.
  cbn [String.prefix]. destruct (ascii_dec a c) as [->|Hne].
  - now rewrite Ascii.eqb_refl.
  - apply Ascii.eqb_neq in Hne. now rewrite Hne.
Qed.

Lemma replace_0b_absent (s : string) :
  all_chars is_bit s = true -> PyStr.replace_from O "0b" "" s = s.
Proof.
  induction s as [|c s IH]; [reflexivity|].
  intros H. cbn [all_chars] in H. apply andb_true_iff in H.
  destruct H as [Hc Hs]. cbn [PyStr.replace_from].
  assert (P : String.prefix "0b" (String c s) = false).
  { rewrite prefix_cons. destruct s as [|c' s']; [apply andb_false_r|].
    rewrite prefix_cons.
    cbn [all_chars] in Hs. apply andb_true_iff in Hs. destruct Hs as [Hc' _].
    destruct (Ascii.eqb_spec "b" c') as [<-|]; [discriminate Hc'|].
    apply andb_false_r. }
  rewrite P. f_equal. now apply IH.
Qed.

Lemma mant_of_pos (p : positive) :
  PyStr.replace "0b" "" (PyStr.bin (Zpos p)) = PyStr.bits p.
Proof.
  unfold PyStr.replace. cbn [PyStr.bin append].
  assert (E : String.prefix "0b" (String "0" (String "b" (PyStr.bits p)))
              = true).
  { rewrite !prefix_cons. now destruct (PyStr.bits p). }
  change (PyStr.replace_from 0 "0b" "" (String "0" (String "b" (PyStr.bits p))))
    with (if String.prefix "0b" (String "0" (String "b" (PyStr.bits p)))
          then PyStr.replace_from 0 "0b" "" (PyStr.bits p)
          else String "0" (PyStr.replace_from 0 "0b" ""
                             (String "b" (PyStr.bits p)))).
  rewrite E. apply replace_0b_absent. apply bits_are_bits.
Qed.

Lemma uint_of_bits (s : string) :
  all_chars is_bit s = true ->
  exists d, NilEmpty.uint_of_string s = Some d
            /\ (Pos.of_uint d = 0%N <-> all_chars (Ascii.eqb "0") s = true).
Proof.
  induction s as [|c s IH]; intros H.
  - exists Decimal.Nil. now split.
  - cbn [all_chars] in H. apply andb_true_iff in H. destruct H as [Hc Hs].
    destruct (IH Hs) as [d [Hd Hz]]. cbn [NilEmpty.uint_of_string].
    rewrite Hd. unfold is_bit in Hc. apply orb_true_iff in Hc.
    destruct Hc as [Hc|Hc]; apply Ascii.eqb_eq in Hc; subst c.
    + exists (Decimal.D0 d). split; [reflexivity|]. cbn [Pos.of_uint all_chars].
      now rewrite Hz.
    + exists (Decimal.D1 d). split; [reflexivity|]. cbn [Pos.of_uint all_chars].
      split; discriminate.
Qed.

(** [int(s) > 0] for a non-empty string of binary digits: some digit is 1. *)
Lemma to_int_bits (s : string) :
  s <> EmptyString ->
  all_chars is_bit s = true ->
  exists t, PyStr.to_int s = Ok t
            /\ (0 <? t) = negb (all_chars (Ascii.eqb "0") s).
Proof.
  intros Hne Hb. destruct (uint_of_bits s Hb) as [d [Hd Hz]].
  destruct s as [|c r]; [now elim Hne|].
  assert (Hm : Ascii.eqb c "-" = false).
  { cbn [all_chars] in Hb. apply andb_true_iff in Hb. destruct Hb as [Hc _].
    unfold is_bit in Hc. apply orb_true_iff in Hc.
    destruct Hc as [Hc|Hc]; apply Ascii.eqb_eq in Hc; rewrite Hc;
      reflexivity. }
  exists (Z.of_N (Pos.of_uint d)). split.
  - unfold PyStr.to_int, NilZero.int_of_string. rewrite Hm.
    unfold NilZero.uint_of_string. now rewrite Hd.
  - destruct (all_chars (Ascii.eqb "0") (String c r)) eqn:E.
    + rewrite (proj2 Hz eq_refl). reflexivity.
    + destruct (Pos.of_uint d) eqn:F; [|reflexivity].
      pose proof (proj1 Hz eq_refl). congruence.
Qed.

Lemma drop_app_le (n : nat) (a b : string) :
  (n <= String.length a)%nat ->
  PyStr.drop n (a ++ b) = (PyStr.drop n a ++ b)%string.
Proof.
  revert a. induction n as [|n IH]; intros a H; [reflexivity|].
  destruct a as [|c a]; cbn in H; [lia|].
  cbn [append PyStr.drop]. apply IH. lia.
Qed.

Lemma drop_all (n : nat) (a : string) :
  (String.length a <= n)%nat -> PyStr.drop n a = EmptyString.
Proof.
  revert a. induction n as [|n IH]; intros a H.
  - destruct a; [reflexivity | cbn in H; lia].
  - destruct a as [|c a]; [reflexivity|]. cbn in H. cbn [PyStr.drop].
    apply IH. lia.
Qed.

Lemma drop_bits_are_bits (k : nat) (p : positive) :
  all_chars is_bit (PyStr.drop k (PyStr.bits p)) = true.
Proof.
  generalize (bits_are_bits p). generalize (PyStr.bits p). clear p.
  induction k as [|k IH]; intros s H; [exact H|].
  destruct s as [|c s]; [reflexivity|].
  cbn [all_chars] in H. apply andb_true_iff in H. cbn [PyStr.drop].
  apply IH. tauto.
Qed.

(** The binary digits after the first [k] are all zero exactly when the
    number is a multiple of the corresponding power of two. *)
Lemma low_bits_zero (k : nat) (p : positive) :
  (k <= Pos.size_nat p)%nat ->
  all_chars (Ascii.eqb "0") (PyStr.drop k (PyStr.bits p)) =
  (Zpos p mod 2 ^ Z.of_nat (Pos.size_nat p - k) =? 0).
Proof.
  induction p as [p IH|p IH|]; intros Hk.
  - cbn [Pos.size_nat PyStr.bits] in *.
    destruct (Nat.eq_dec k (S (Pos.size_nat p))) as [->|Hne].
    + rewrite drop_all by (rewrite string_length_app, bits_length; cbn; lia).
      rewrite Nat.sub_diag. cbn [Z.of_nat]. now rewrite Z.pow_0_r, Z.mod_1_r.
    + rewrite drop_app_le by (rewrite bits_length; lia).
      rewrite all_chars_app. cbn [all_chars Ascii.eqb Bool.eqb].
      rewrite andb_false_r. symmetry. apply Z.eqb_neq.
      replace (S (Pos.size_nat p) - k)%nat
        with (S (Pos.size_nat p - k))%nat by lia.
      rewrite Nat2Z.inj_succ, Z.pow_succ_r by lia.
      set (Q := 2 ^ Z.of_nat (Pos.size_nat p - k)).
      assert (0 < Q) by (apply Z.pow_pos_nonneg; lia).
      intros Hm. apply Z.mod_divide in Hm; [|lia].
      destruct Hm as [q Hq]. lia.
  - cbn [Pos.size_nat PyStr.bits] in *.
    destruct (Nat.eq_dec k (S (Pos.size_nat p))) as [->|Hne].
    + rewrite drop_all by (rewrite string_length_app, bits_length; cbn; lia).
      rewrite Nat.sub_diag. cbn [Z.of_nat]. now rewrite Z.pow_0_r, Z.mod_1_r.
    + rewrite drop_app_le by (rewrite bits_length; lia).
      rewrite all_chars_app. cbn [all_chars Ascii.eqb Bool.eqb].
      rewrite !andb_true_r. rewrite IH by lia.
      replace (S (Pos.size_nat p) - k)%nat
        with (S (Pos.size_nat p - k))%nat by lia.
      rewrite Nat2Z.inj_succ, Z.pow_succ_r by lia.
      set (Q := 2 ^ Z.of_nat (Pos.size_nat p - k)).
      assert (0 < Q) by (apply Z.pow_pos_nonneg; lia).
      change (Zpos p~0) with (2 * Zpos p).
      rewrite Z.mul_mod_distr_l by lia.
      destruct (Z.eqb_spec (Zpos p mod Q) 0) as [E|E];
        symmetry; [apply Z.eqb_eq | apply Z.eqb_neq]; lia.
  - cbn [Pos.size_nat PyStr.bits] in *.
    destruct k as [|[|k]]; [reflexivity | reflexivity | lia].
Qed.

Lemma floor_log10_from_range (fuel : nat) (k : Z) (x : Q) :
  k - Z.of_nat fuel <= PyFloat.floor_log10_from fuel k x <= k.
Proof.
  revert k. induction fuel as [|fuel IH]; intros k.
  - cbn. lia.
  - cbn [PyFloat.floor_log10_from].
    destruct (Qle_bool (Qpower 10 k) x); [lia|].
    specialize (IH (k - 1)). lia.
Qed.

Lemma float32_max_check_value :
  float32_max_check = PyFloat (S754_finite false 9007198806847479 75).
Proof. vm_compute. reflexivity. Qed.

Lemma num_gt_int_max_check (z : Z) :
  z <= 9007198806847479 * 2 ^ 75 ->
  num_gt (PyInt z) float32_max_check = false.
Proof.
  intros H. rewrite float32_max_check_value. unfold num_gt.
  cbn [num_value]. unfold PyFloat.Qlt_bool. apply negb_false_iff.
  apply Qle_bool_iff.
  assert (E : (PyFloat.to_Q (S754_finite false 9007198806847479 75) ==
               inject_Z (9007198806847479 * 2 ^ 75))%Q)
    by (vm_compute; reflexivity).
  rewrite E. now rewrite <- Zle_Qle.
Qed.

Lemma num_ne_int_zero (z : Z) : num_ne (PyInt z) (PyInt 0) = negb (z =? 0).
Proof. now destruct z. Qed.

Lemma drop_nonempty (n : nat) (s : string) :
  (n < String.length s)%nat -> PyStr.drop n s <> EmptyString.
Proof.
  revert s. induction n as [|n IH]; intros s H.
  - destruct s; [cbn in H; lia | discriminate].
  - destruct s as [|c s]; [cbn in H; lia|]. cbn [PyStr.drop]. apply IH.
    cbn in H. lia.
Qed.

Lemma exponent_of_int_in_range (z : Z) :
  z <> 0 ->
  Z.abs z <= 9007198806847479 * 2 ^ 75 ->
  -126 <= floor_log10_abs (PyInt z) <= 127.
Proof.
  intros Hz Hb. unfold floor_log10_abs. cbn [num_value].
  unfold PyFloat.floor_log10.
  cbn [Qabs inject_Z Qnum Qden]. change (Z.log2 1) with 0.
  set (L := Z.log2 (Z.abs z)).
  assert (HL : 0 <= L < 128).
  { split; [apply Z.log2_nonneg|].
    apply Z.log2_lt_pow2; [lia|].
    apply Z.le_lt_trans with (m := 9007198806847479 * 2 ^ 75); [exact Hb|].
    reflexivity. }
  assert (Ht : 0 <= (L - 0 + 1) * 30103 / 100000 < 39).
  { split; [apply Z.div_pos; lia|].
    apply Z.div_lt_upper_bound; lia. }
  pose proof (floor_log10_from_range 8
                ((L - 0 + 1) * 30103 / 100000 + 1) (Z.abs z # 1)) as R.
  cbn [Z.of_nat] in R. lia.
Qed.

(** X15: for an int [z] that converts to a float and whose absolute value
    does not exceed the bound [3.4028235 * 10**38] (the integer
    9007198806847479 * 2**75), [_check_float64(z)] does not raise and is
    true exactly when [abs(z)] has more than 24 binary digits and a
    non-zero digit after the 24th, that is when [abs(z)] is not a multiple
    of [2 ** (bit_length - 24)]: 16777217 forces "float64", 16777216 and
    every int below it do not. *)
Theorem check_float64_int (z : Z) :
  math_isfinite (PyInt z) = Ok true ->
  Z.abs z <= 9007198806847479 * 2 ^ 75 ->
  _check_float64 (PyInt z) =
    Ok ((24 <? Z.log2 (Z.abs z) + 1)
        && negb (Z.abs z mod 2 ^ (Z.log2 (Z.abs z) + 1 - 24) =? 0)).
Proof.
  intros Hfin Hb. unfold _check_float64. rewrite Hfin. cbn [rbind].
  rewrite integer_part_str_int, to_int_of_int. cbn [rbind].
  rewrite num_gt_int_max_check by lia.
  rewrite num_ne_int_zero.
  destruct (Z.eqb_spec z 0) as [->|Hz]; [reflexivity|].
  cbn [negb].
  pose proof (exponent_of_int_in_range z Hz Hb) as He.
  replace (floor_log10_abs (PyInt z) <? -126) with false
    by (symmetry; apply Z.ltb_ge; lia).
  replace (127 <? floor_log10_abs (PyInt z)) with false
    by (symmetry; apply Z.ltb_ge; lia).
  assert (Hp : exists p, Z.abs z = Zpos p).
  { destruct z as [|p|p]; [now elim Hz | now exists p | now exists p]. }
  destruct Hp as [p Hp]. rewrite Hp. rewrite mant_of_pos, bits_length.
  rewrite size_nat_log2.
  destruct (24 <? Z.log2 (Zpos p) + 1) eqn:E24; [|reflexivity].
  apply Z.ltb_lt in E24. rewrite <- size_nat_log2 in E24.
  destruct (to_int_bits (PyStr.drop 24 (PyStr.bits p))) as [t [Ht Hpos]].
  - apply drop_nonempty. rewrite bits_length. lia.
  - apply drop_bits_are_bits.
  - rewrite Ht. cbn [rbind andb]. rewrite !orb_false_r. rewrite Hpos.
    rewrite low_bits_zero by lia.
    rewrite <- size_nat_log2.
    replace (Z.of_nat (Pos.size_nat p - 24)) with (Z.of_nat (Pos.size_nat p) - 24)
      by lia.
    reflexivity.
Qed.

(** An instance: the first int that a 24-bit mantissa cannot hold, and
    the negative of the last one it can. *)
Lemma check_float64_int_witness :
  _check_float64 (PyInt 16777217) = Ok true
  /\ _check_float64 (PyInt (-16777216)) = Ok false.
Proof.
  split.
  - apply (check_float64_int 16777217); [reflexivity | vm_compute; discriminate].
  - apply (check_float64_int (-16777216));
      [reflexivity | vm_compute; discriminate].
Defined.

(** ** Lists and tuples of numbers, float side *)



